(** * iconify-skill: the fetcher, alias resolver, index builders, query
    engine and SVG assembler of [scripts/iconify_cli.py],
    [scripts/build_index.py] and [scripts/update_bundled_data.py],
    embedded as Rocq functions, with the properties of the specification
    stated and settled on them.

    Conventions of the embedding.
    - A Python [str] is a [string]; a character stands for a code point
      below 256, and [isspace] / [lower] are Python's on that range.
    - A [dict] whose iteration order is observable (an icon table, an alias
      dict, the catalog) is an association list in insertion order; the
      cache directory, which is only looked up by key, is a [gmap].
    - JSON documents are modelled at the type the Iconify schema gives
      them: an icon entry carries the keys the program reads.
    - A Python exception is a value of [exn]; a call that can raise returns
      [res]. A loop that the source does not bound takes fuel and returns
      [None] when the fuel runs out.
    - SQLite is not the repository's: a statement is handed to it as the
      text the source builds, and what it answers is a parameter; what is
      assumed of it is stated where a property needs it. *)

From Stdlib Require Import Ascii ZArith DecimalString.
From stdpp Require Import gmap strings list fin_maps sorting.

Local Open Scope Z_scope.

(** ** Python primitives *)

Module Py.

(** Exceptions the three scripts can see, with the part of Python's class
    hierarchy the [except] clauses depend on. *)
Inductive exn : Type :=
| Exception
| RuntimeError
| ValueError
| JSONDecodeError
| UnicodeDecodeError
| OSError
| URLError
| HTTPError
| TimeoutError
| LookupError
| KeyError
| NameError
| UnboundLocalError
| OperationalError.

#[global] Instance exn_eq_dec : EqDecision exn.
Proof. solve_decision. Defined.

(** The direct base class; [Exception] is the root of what is modelled. *)
Definition base (e : exn) : option exn :=
  match e with
  | Exception => None
  | RuntimeError | ValueError | OSError | LookupError | NameError
  | OperationalError => Some Exception
  | JSONDecodeError | UnicodeDecodeError => Some ValueError
  | URLError | TimeoutError => Some OSError
  | HTTPError => Some URLError
  | KeyError => Some LookupError
  | UnboundLocalError => Some NameError
  end.

(** [issubclass e cls]; the hierarchy is three levels deep. *)
Definition issubclass (e cls : exn) : bool :=
  bool_decide (e = cls)
  || match base e with
     | None => false
     | Some b1 =>
         bool_decide (b1 = cls)
         || match base b1 with
            | None => false
            | Some b2 =>
                bool_decide (b2 = cls)
                || match base b2 with
                   | None => false
                   | Some b3 => bool_decide (b3 = cls)
                   end
            end
     end.

(** [except (c1, c2, ...)]: does the clause catch [e]? *)
Definition caught (e : exn) (classes : list exn) : bool :=
  existsb (issubclass e) classes.

Inductive res (A : Type) : Type :=
| Ok (a : A)
| Raise (e : exn).
Arguments Ok {A} a.
Arguments Raise {A} e.

(** [str.isspace] on one character. *)
Definition isspace (c : ascii) : bool :=
  let n := nat_of_ascii c in
  ((9 <=? n) && (n <=? 13) || (28 <=? n) && (n <=? 32)
   || (n =? 133) || (n =? 160))%nat.

(** [str.lower] on one character. *)
Definition lower_char (c : ascii) : ascii :=
  let n := nat_of_ascii c in
  if ((65 <=? n) && (n <=? 90)
      || (192 <=? n) && (n <=? 222) && negb (n =? 215))%nat
  then ascii_of_nat (n + 32) else c.

Fixpoint lower (s : string) : string :=
  match s with
  | EmptyString => EmptyString
  | String c s' => String (lower_char c) (lower s')
  end.

(** [needle in hay] on strings. *)
Fixpoint contains (needle hay : string) : bool :=
  String.prefix needle hay
  || match hay with
     | EmptyString => false
     | String _ hay' => contains needle hay'
     end.

(** [s.split()] with no argument: the maximal runs of non-space
    characters. [tok] is the run being read. *)
Fixpoint split_from (tok s : string) : list string :=
  match s with
  | EmptyString => if String.eqb tok "" then [] else [tok]
  | String c s' =>
      if isspace c
      then (if String.eqb tok "" then split_from "" s'
            else tok :: split_from "" s')
      else split_from (tok +:+ String c "") s'
  end.

Definition split (s : string) : list string := split_from "" s.

(** [sep.join(parts)]. *)
Definition join (sep : string) (parts : list string) : string :=
  String.concat sep parts.

(** [str(n)] and [f"{n}"] for an [int]. *)
Definition str_int (n : Z) : string := NilZero.string_of_int (Z.to_int n).

(** Truthiness of an optional string ([None] and [""] are false). *)
Definition truthy (o : option string) : bool :=
  match o with
  | Some s => negb (String.eqb s "")
  | None => false
  end.

(** [dict.get(k)] on an insertion-ordered dict. *)
Fixpoint dict_get {V} (d : list (string * V)) (k : string) : option V :=
  match d with
  | [] => None
  | (k', v) :: d' => if String.eqb k' k then Some v else dict_get d' k
  end.

(** [d[k] = v]: an existing key keeps its position. *)
Fixpoint dict_set {V} (d : list (string * V)) (k : string) (v : V)
  : list (string * V) :=
  match d with
  | [] => [(k, v)]
  | (k', v') :: d' =>
      if String.eqb k' k then (k', v) :: d' else (k', v') :: dict_set d' k v
  end.

(** [d.update(other)]. *)
Definition dict_update {V} (d other : list (string * V)) : list (string * V) :=
  fold_left (fun acc kv => dict_set acc kv.1 kv.2) other d.

Definition keys {V} (d : list (string * V)) : list string := d.*1.

(** [l[:n]] for a possibly negative [n]. *)
Definition slice_to {A} (n : Z) (l : list A) : list A :=
  if n <? 0 then take (length l - Z.to_nat (- n)) l else take (Z.to_nat n) l.

Definition dquote : string := String (ascii_of_nat 34) "".
Definition squote : string := String (ascii_of_nat 39) "".
Definition newline : string := String (ascii_of_nat 10) "".

(** [s.split(sep, 1)] for a one-character separator: the text before the
    first occurrence and, when there is one, the text after it. *)
Fixpoint split_once (sep : ascii) (s : string) : string * option string :=
  match s with
  | EmptyString => (EmptyString, None)
  | String c s' =>
      if Ascii.eqb c sep then (EmptyString, Some s')
      else (String c (split_once sep s').1, (split_once sep s').2)
  end.

End Py.

Export Py (exn(..), res(..)).

(** ** The data model (spec section 3) *)

(** An alias dict maps an alternate name to the JSON text of its value,
    which no script inspects. *)
Definition alias_dict : Type := list (string * string).

(** RawIconEntry: the keys of an [icons] entry that the scripts read;
    [get_parent icon] is [icon.get("parent")], and so on. *)
Record icon : Type := Icon {
  get_parent : option string;
  get_aliases : option alias_dict;
  get_body : option string;
  get_width : option Z;
  get_height : option Z
}.

#[global] Instance icon_eq_dec : EqDecision icon.
Proof. solve_decision. Defined.

(** The [{}] that [icons.get(name, {})] falls back to. *)
Definition empty_icon : icon := Icon None None None None None.

Definition icon_table : Type := list (string * icon).

(** The per-collection document [{icons, license}]. *)
Record icon_set : Type := IconSetDoc {
  get_icons : option icon_table;
  get_license_title : option string;
  get_license_url : option string
}.

Record collection_info : Type := CollectionInfo {
  total : option Z;
  info_license_title : option string
}.

(** The catalog: prefix to collection metadata. *)
Definition catalog : Type := list (string * collection_info).

(** What an endpoint or a cache file can hold. *)
Inductive document : Type :=
| Catalog (c : catalog)
| IconSet (d : icon_set).

(** A catalog read as a per-collection document has none of its keys, and
    the other way round. *)
Definition as_icon_set (d : document) : icon_set :=
  match d with
  | IconSet s => s
  | Catalog _ => IconSetDoc None None None
  end.

Definition as_catalog (d : document) : catalog :=
  match d with
  | Catalog c => c
  | IconSet _ => []
  end.

(** The two tables of the index file. *)
Record icon_row : Type := IconRow {
  r_prefix : string;
  r_name : string;
  r_full_id : string;
  r_aliases : string;
  r_license : string
}.

Record fts_row : Type := FtsRow {
  f_prefix : string;
  f_name : string;
  f_full_id : string;
  f_tokens : string
}.

Record tables : Type := Tables {
  icons_tbl : list icon_row;
  icons_fts : list fts_row
}.

Definition no_rows : tables := Tables [] [].

(** [f"{prefix}:{name}"] *)
Definition full_id_of (prefix name : string) : string :=
  prefix +:+ ":" +:+ name.

(** ** The state the scripts run in *)

(** A file of the cache directory, as [json.load] finds it: a document, a
    file that does not parse (a truncated write), or one that cannot be
    opened. *)
Inductive file : Type :=
| Valid (d : document)
| Malformed
| Unreadable.

(** What [urlopen] followed by [json.loads] yields for a URL. *)
Inductive response : Type :=
| Body (d : document)
| Fails (e : exn).

(** [with open(path) as f: json.load(f)] *)
Definition json_load (f : file) : res document :=
  match f with
  | Valid d => Ok d
  | Malformed => Raise JSONDecodeError
  | Unreadable => Raise OSError
  end.

(** The SQLite connection of a build: the rows on disk and the rows the
    open transaction sees. The first [DELETE] or [INSERT] opens the
    transaction; [commit] makes it durable; closing or dropping the
    connection discards what was not committed. *)
Record connection : Type := Conn {
  on_disk : tables;
  pending : tables
}.

(** [sqlite3.connect(path)] followed by the two
    [CREATE ... IF NOT EXISTS]: a missing file becomes two empty tables. *)
Definition connect (index_file : option tables) : connection :=
  let t := default no_rows index_file in Conn t t.

(** [DELETE FROM icons] and [DELETE FROM icons_fts]. *)
Definition delete_all (c : connection) : connection :=
  Conn (on_disk c) no_rows.

Definition insert_icons (r : icon_row) (c : connection) : connection :=
  Conn (on_disk c)
    (Tables (icons_tbl (pending c) ++ [r]) (icons_fts (pending c))).

Definition insert_icons_fts (r : fts_row) (c : connection) : connection :=
  Conn (on_disk c)
    (Tables (icons_tbl (pending c)) (icons_fts (pending c) ++ [r])).

Definition commit (c : connection) : connection :=
  Conn (pending c) (pending c).

(** The file a connection leaves when it is closed or dropped. *)
Definition close (c : connection) : tables := on_disk c.

(** The files the scripts read and write. *)
Record world : Type := World {
  cache : gmap string file;          (* CACHE_DIR/<md5>.json *)
  cache_index : option tables;       (* CACHE_DIR/icons.db *)
  bundle_index : option tables;      (* data/icons.db *)
  bundle_metadata : option file      (* data/collections.json *)
}.

#[global] Instance res_ret : MRet res := fun _ a => Ok a.
#[global] Instance res_bind : MBind res := fun _ _ f m =>
  match m with
  | Ok a => f a
  | Raise e => Raise e
  end.

(** ** scripts/iconify_cli.py *)

Module iconify_cli.

Import Py.

Definition ICONIFY_API : string := "https://api.iconify.design".
Definition GITHUB_RAW : string :=
  "https://raw.githubusercontent.com/iconify/icon-sets/master/json".
Definition COLLECTIONS_URL : string := ICONIFY_API +:+ "/collections".
Definition GITHUB_COLLECTION_URL : string := GITHUB_RAW +:+ "/".

(** The names bound at module level when a function body runs: imports,
    constants and [def]s, in source order. *)
Definition module_globals : list string :=
  [ "argparse"; "json"; "os"; "sys"; "hashlib"; "re"; "Path"; "urlopen";
    "Request"; "URLError"; "HTTPError"; "lru_cache"; "datetime"; "sqlite3";
    "CACHE_DIR"; "ICONIFY_API"; "GITHUB_RAW"; "SCRIPT_DIR"; "SKILL_DIR";
    "BUNDLE_DATA_DIR"; "BUNDLE_INDEX"; "BUNDLE_METADATA"; "BUNDLE_ZIP";
    "COLLECTIONS_URL"; "GITHUB_COLLECTION_URL"; "__version__";
    "ensure_cache_dir"; "get_cache_path"; "http_get"; "load_collections";
    "has_bundled_index"; "get_prefix_json"; "list_collections";
    "search_icons"; "search_index"; "build_index"; "get_icon_data";
    "resolve_aliases"; "sanitize_svg"; "get_svg"; "suggest_icons";
    "show_attribution"; "doctor"; "main" ].

(** Evaluating a global name. *)
Definition load_global (name : string) : res unit :=
  if bool_decide (name ∈ module_globals) then Ok tt else Raise NameError.

(** Reading a local variable that may not have been assigned yet. *)
Definition load_fast {A} (local : option A) : res A :=
  match local with
  | Some v => Ok v
  | None => Raise UnboundLocalError
  end.

Section Fetcher.

(** [hashlib.md5(url.encode()).hexdigest()] and the network are the
    environment of the fetcher. *)
Variable md5_hexdigest : string -> string.
Variable urlopen : string -> response.

Definition cache_key (url : string) : string := md5_hexdigest url +:+ ".json".

(** The network half of [http_get] (lines 73-87). *)
Definition fetch_network (cache : gmap string file) (url : string)
  : res document * gmap string file :=
  match urlopen url with
  | Body data => (Ok data, <[cache_key url := Valid data]> cache)
  | Fails e =>
      if caught e [URLError; HTTPError; JSONDecodeError]
      then match cache !! cache_key url with
           | Some f => (json_load f, cache)
           | None => (Raise RuntimeError, cache)
           end
      else (Raise e, cache)
  end.

(** [http_get(url)], returning the document or the exception together with
    the cache directory it leaves. *)
Definition http_get (cache : gmap string file) (url : string)
  : res document * gmap string file :=
  match cache !! cache_key url with
  | Some f =>
      match json_load f with
      | Ok d => (Ok d, cache)
      | Raise e =>
          if caught e [JSONDecodeError; OSError]
          then fetch_network cache url
          else (Raise e, cache)
      end
  | None => fetch_network cache url
  end.

Definition get_prefix_json (cache : gmap string file) (prefix : string)
  : res document * gmap string file :=
  http_get cache (GITHUB_COLLECTION_URL +:+ "/" +:+ prefix +:+ ".json").

(** [load_collections()]: the bundled metadata file first, then the
    network. *)
Definition load_collections (bundle_metadata : option file)
  (cache : gmap string file) : res document * gmap string file :=
  match bundle_metadata with
  | Some f =>
      match json_load f with
      | Ok d => (Ok d, cache)
      | Raise e =>
          if caught e [JSONDecodeError; OSError]
          then http_get cache COLLECTIONS_URL
          else (Raise e, cache)
      end
  | None => http_get cache COLLECTIONS_URL
  end.

End Fetcher.

(** *** Alias resolver *)

(** The [while "parent" in current] loop of [resolve_aliases]; [fuel] bounds
    the number of iterations. *)
Fixpoint resolve_loop (fuel : nat) (icons : icon_table) (current : icon)
  : option icon :=
  match get_parent current with
  | None => Some current
  | Some parent_name =>
      match fuel with
      | O => None
      | S fuel' =>
          resolve_loop fuel' icons
            (default empty_icon (dict_get icons parent_name))
      end
  end.

Definition resolve_aliases (fuel : nat) (data : icon_set) (name : string)
  : option icon :=
  let icons := default [] (get_icons data) in
  resolve_loop fuel icons (default empty_icon (dict_get icons name)).

(** *** SVG assembler *)

(** The fragment of [re] patterns the script uses: a sequence of character
    classes, each a list of the characters it admits. *)
Definition pattern : Type := list (list ascii).

Definition lit (s : string) : pattern :=
  (fun c => [c]) <$> String.list_ascii_of_string s.

Fixpoint match_here (p : pattern) (s : string) : bool :=
  match p with
  | [] => true
  | cls :: p' =>
      match s with
      | EmptyString => false
      | String c s' => bool_decide (c ∈ cls) && match_here p' s'
      end
  end.

(** [re.search(p, s)] as a truth value. *)
Fixpoint re_search (p : pattern) (s : string) : bool :=
  match_here p s
  || match s with
     | EmptyString => false
     | String _ s' => re_search p s'
     end.

(** The pattern of line 315: [href=], a double or a single quote, [http]. *)
Definition href_http : pattern :=
  lit "href=" ++ [[ascii_of_nat 34; ascii_of_nat 39]] ++ lit "http".

Definition sanitize_svg (body : string) : bool :=
  let body_lower := lower body in
  if contains "<script" body_lower then false
  else if contains "onload=" body_lower then false
  else if re_search href_http body_lower then false
  else true.

(** Lines 361-376 of [get_svg]: the parts list and its join. *)
Definition svg_parts (body : string) (width height size : Z)
  (color : option string) : list string :=
  [ "<svg xmlns=" +:+ dquote +:+ "http://www.w3.org/2000/svg" +:+ dquote;
    "viewBox=" +:+ dquote +:+ "0 0 " +:+ str_int width +:+ " "
      +:+ str_int height +:+ dquote;
    "width=" +:+ dquote +:+ str_int size +:+ dquote +:+ " height="
      +:+ dquote +:+ str_int size +:+ dquote +:+ ">" ]
  ++ (if truthy color && negb (bool_decide (color = Some "currentColor"))
      then [ "<g fill=" +:+ dquote +:+ default "" color +:+ dquote +:+ ">";
             body; "</g>" ]
      else [ body ])
  ++ [ "</svg>" ].

(** What [get_svg] prints once the collection is loaded: one of its three
    messages, or the markup (the attribution comments that follow the
    markup are left out). *)
Inductive svg_outcome : Type :=
| IconNotFound
| EmptyIconBody
| UnsafeElements
| Markup (svg : string).

(** Lines 342-376 of [get_svg], from the resolved icon on. *)
Definition get_svg_icon (icon : icon) (size : Z) (color : option string)
  : svg_outcome :=
  if bool_decide (icon = empty_icon) then IconNotFound
  else
    let body := default "" (get_body icon) in
    if String.eqb body "" then EmptyIconBody
    else if negb (sanitize_svg body) then UnsafeElements
    else
      let width := default size (get_width icon) in
      let height := default size (get_height icon) in
      Markup (join newline (svg_parts body width height size color)).

(** Lines 339-376 of [get_svg], for an identifier [prefix:name] whose
    collection document is [data]. *)
Definition get_svg (fuel : nat) (data : icon_set) (name : string) (size : Z)
  (color : option string) : option svg_outcome :=
  icon ← resolve_aliases fuel data name;
  Some (get_svg_icon icon size color).

(** What [get_svg] prints for an outcome, one entry for each [print]: the
    messages of lines 343 and 348 and the attribution comment of line 383
    name the identifier as it was asked for. *)
Definition get_svg_print (prefix name : string) (data : icon_set)
  (outcome : svg_outcome) : list string :=
  match outcome with
  | IconNotFound => ["Icon not found: " +:+ full_id_of prefix name]
  | EmptyIconBody => ["Empty icon body: " +:+ full_id_of prefix name]
  | UnsafeElements => ["Icon contains unsafe elements, skipping."]
  | Markup svg =>
      [svg;
       newline +:+ "<!-- Icon: " +:+ full_id_of prefix name +:+ " -->";
       "<!-- License: " +:+ default "Unknown" (get_license_title data)
       +:+ " -->"]
      ++ (if truthy (get_license_url data)
          then ["<!-- License URL: " +:+ default "" (get_license_url data)
                +:+ " -->"]
          else [])
  end.

(** Lines 339-386 of [get_svg]: everything it prints. *)
Definition get_svg_output (fuel : nat) (prefix : string) (data : icon_set)
  (name : string) (size : Z) (color : option string)
  : option (list string) :=
  outcome ← get_svg fuel data name size color;
  Some (get_svg_print prefix name data outcome).

(** *** Query engine *)

(** [if prefixes and prefix not in prefixes: continue] of the loops over the
    collections. *)
Definition in_prefixes (prefixes : option (list string)) (prefix : string)
  : bool :=
  match prefixes with
  | Some (p :: ps) => bool_decide (prefix ∈ p :: ps)
  | _ => true
  end.

(** Line 196: the expression handed to [MATCH]. *)
Definition search_query (query : string) : string :=
  join "*" (split query) +:+ "*".

(** SQL [LIMIT n]: a negative [n] is no limit. *)
Definition sql_limit {A} (limit : Z) (rows : list A) : list A :=
  if limit <? 0 then rows else take (Z.to_nat limit) rows.

(** [f"'{p}'"]: the prefix between single quotes, as it is. *)
Definition quoted (p : string) : string := squote +:+ p +:+ squote.

(** The argument of [format] in line 193: nothing for a missing or empty
    list, else the prefixes pasted into an [IN] list. *)
Definition prefix_clause (prefixes : option (list string)) : string :=
  match prefixes with
  | Some (p :: ps) =>
      "AND prefix IN (" +:+ join "," (quoted <$> p :: ps) +:+ ")"
  | _ => ""
  end.

(** The text of lines 187-193 before and after the [{}]. *)
Definition select_head : string :=
  newline +:+ "        SELECT prefix, name, bm25(icons_fts) as score"
  +:+ newline +:+ "        FROM icons_fts"
  +:+ newline +:+ "        WHERE icons_fts MATCH ? ".

Definition select_tail : string :=
  newline +:+ "        ORDER BY score"
  +:+ newline +:+ "        LIMIT ?"
  +:+ newline +:+ "    ".

(** [sql], the statement text of lines 187-193. *)
Definition select_sql (prefixes : option (list string)) : string :=
  select_head +:+ prefix_clause prefixes +:+ select_tail.

Section Engine.

(** The database engine is SQLite's, not the repository's:
    [cursor.execute(sql, params)] followed by [fetchall()] on a connection
    to an index file answers rows, or raises on a statement or an
    expression it rejects. *)
Variable Score : Type.
Variable sqlite_execute :
  tables -> string -> string * Z -> res (list (string * string * Score)).

(** [search_index]: the statement text of lines 187-193 executed with
    [(search_query, limit)]. *)
Definition search_index (query : string) (limit : Z)
  (prefixes : option (list string)) (index : tables)
  : res (list (string * string * Score)) :=
  let sql := select_sql prefixes in
  let search_query := search_query query in
  sqlite_execute index sql (search_query, limit).

End Engine.

(** [has_bundled_index()]: the bundled file exists and [icons] has rows. *)
Definition has_bundled_index (w : world) : bool :=
  match bundle_index w with
  | Some t => bool_decide (0 < length (icons_tbl t))%nat
  | None => false
  end.

(** Lines 167-168: the substring test of the linear scan. *)
Definition icon_matches (query_lower name : string) (icon : icon) : bool :=
  contains query_lower (lower name)
  || existsb (fun a => contains query_lower (lower a))
       (keys (default [] (get_aliases icon))).

(** Lines 165-171: the inner loop over one collection; it stops at the
    first hit that brings [results] to [limit] entries. *)
Fixpoint scan_icons (query_lower : string) (limit : Z) (prefix : string)
  (icons : icon_table) (results : list (string * string))
  : list (string * string) :=
  match icons with
  | [] => results
  | (name, icon) :: rest =>
      if icon_matches query_lower name icon
      then
        let results := results ++ [(prefix, name)] in
        if limit <=? Z.of_nat (length results) then results
        else scan_icons query_lower limit prefix rest results
      else scan_icons query_lower limit prefix rest results
  end.

(** What [search_icons] prints: ranked rows, or the hits of the linear
    scan after its warning. *)
Inductive search_output (Score : Type) : Type :=
| Ranked (rows : list (string * string * Score))
| LinearScan (hits : list (string * string)).
Arguments Ranked {Score} rows.
Arguments LinearScan {Score} hits.

Section Commands.

Variable md5_hexdigest : string -> string.
Variable urlopen : string -> response.
Variable Score : Type.
Variable sqlite_execute :
  tables -> string -> string * Z -> res (list (string * string * Score)).

(** Lines 159-173: the outer loop; any exception of a collection is
    swallowed by [except Exception: continue]. *)
Fixpoint scan_collections (query_lower : string) (limit : Z)
  (prefixes : option (list string)) (cache : gmap string file)
  (collections : list string) (results : list (string * string))
  : res (list (string * string)) * gmap string file :=
  match collections with
  | [] => (Ok results, cache)
  | prefix :: rest =>
      if negb (in_prefixes prefixes prefix)
      then scan_collections query_lower limit prefixes cache rest results
      else
        match get_prefix_json md5_hexdigest urlopen cache prefix with
        | (Ok data, cache) =>
            let icons := default [] (get_icons (as_icon_set data)) in
            scan_collections query_lower limit prefixes cache rest
              (scan_icons query_lower limit prefix icons results)
        | (Raise e, cache) =>
            if caught e [Exception]
            then scan_collections query_lower limit prefixes cache rest results
            else (Raise e, cache)
        end
  end.

(** [search_icons(query, limit, prefixes)]: bundled index, else cache
    index, else the linear scan. *)
Definition search_icons (w : world) (query : string) (limit : Z)
  (prefixes : option (list string))
  : res (search_output Score) * gmap string file :=
  let index_path :=
    if has_bundled_index w then bundle_index w else cache_index w in
  match index_path with
  | Some index =>
      let results :=
        search_index Score sqlite_execute query limit prefixes index in
      (results ≫= (fun rows => Ok (Ranked rows)), cache w)
  | None =>
      match load_collections md5_hexdigest urlopen (bundle_metadata w)
              (cache w) with
      | (Raise e, cache) => (Raise e, cache)
      | (Ok collections, cache) =>
          let query_lower := lower query in
          match scan_collections query_lower limit prefixes cache
                  (keys (as_catalog collections)) [] with
          | (Raise e, cache) => (Raise e, cache)
          | (Ok results, cache) =>
              (Ok (LinearScan (slice_to limit results)), cache)
          end
      end
  end.

End Commands.

(** *** The index builder embedded in the command line *)

(** [if prefixes:] on an optional list. *)
Definition nonempty (prefixes : option (list string)) : bool :=
  match prefixes with
  | Some (_ :: _) => true
  | _ => false
  end.

(** [{k: v for k, v in collections.items() if k in prefixes}] *)
Definition restrict {V} (prefixes : option (list string))
  (collections : list (string * V)) : list (string * V) :=
  filter (fun kv => kv.1 ∈ default [] prefixes) collections.

Definition license_of (data : icon_set) : string :=
  default "Unknown" (get_license_title data).

(** Lines 256-269: the rows of one collection; the aliases are the icon's
    own. *)
Fixpoint index_icons (prefix : string) (data : icon_set) (icons : icon_table)
  (conn : connection) (total : nat) : connection * nat :=
  match icons with
  | [] => (conn, total)
  | (name, icon) :: rest =>
      let full_id := full_id_of prefix name in
      let aliases := join " " (keys (default [] (get_aliases icon))) in
      let license_info := license_of data in
      let conn :=
        insert_icons (IconRow prefix name full_id aliases license_info) conn in
      let conn :=
        insert_icons_fts
          (FtsRow prefix name full_id (name +:+ " " +:+ aliases)) conn in
      index_icons prefix data rest conn (S total)
  end.

Definition set_index (bundle : bool) (t : tables) (w : world) : world :=
  if bundle
  then World (cache w) (cache_index w) (Some t) (bundle_metadata w)
  else World (cache w) (Some t) (bundle_index w) (bundle_metadata w).

Definition set_cache (c : gmap string file) (w : world) : world :=
  World c (cache_index w) (bundle_index w) (bundle_metadata w).

(** How a call of a builder ends: what it returned or raised, the
    connection as it stood then ([None] when none was opened), the number
    of icons inserted through it, and the files left behind. *)
Record build_end : Type := BuildEnd {
  outcome : res unit;
  conn_end : option connection;
  inserted : nat;
  world_end : world
}.

Section Builder.

Variable md5_hexdigest : string -> string.
Variable urlopen : string -> response.

(** Lines 252-272. *)
Fixpoint index_collections (cache : gmap string file)
  (collections : list string) (conn : connection) (total : nat)
  : res (connection * nat) * gmap string file :=
  match collections with
  | [] => (Ok (conn, total), cache)
  | prefix :: rest =>
      match get_prefix_json md5_hexdigest urlopen cache prefix with
      | (Ok data, cache) =>
          let data := as_icon_set data in
          let '(conn, total) :=
            index_icons prefix data (default [] (get_icons data)) conn total in
          index_collections cache rest conn total
      | (Raise e, cache) =>
          if caught e [Exception]
          then index_collections cache rest conn total
          else (Raise e, cache)
      end
  end.

(** [build_index(force, bundle, prefixes)] of iconify_cli.py. The local
    variable [collections] has no assignment before line 248. The write
    of [index_meta.json] (lines 237-243) is left out. *)
Definition build_index (w : world) (force bundle : bool)
  (prefixes : option (list string)) : build_end :=
  match (if bundle then load_global "ensure_data_dir" else Ok tt) with
  | Raise e => BuildEnd (Raise e) None 0 w
  | Ok _ =>
      let index_file := if bundle then bundle_index w else cache_index w in
      if bool_decide (is_Some index_file) && negb force
      then BuildEnd (Ok tt) None 0 w
      else
        let conn := delete_all (connect index_file) in
        let collections : option catalog := None in
        let filtered :=
          if nonempty prefixes
          then c ← load_fast collections; Ok (Some (restrict prefixes c))
          else Ok collections in
        match filtered ≫= load_fast with
        | Raise e =>
            BuildEnd (Raise e) (Some conn) 0 (set_index bundle (close conn) w)
        | Ok collections =>
            match index_collections (cache w) (keys collections) conn 0 with
            | (Raise e, cache) =>
                BuildEnd (Raise e) (Some conn) 0
                  (set_cache cache (set_index bundle (close conn) w))
            | (Ok (conn, total), cache) =>
                let conn := commit conn in
                let w := set_cache cache (set_index bundle (close conn) w) in
                if bundle
                then
                  match http_get md5_hexdigest urlopen cache COLLECTIONS_URL with
                  | (Raise e, cache) =>
                      BuildEnd (Raise e) (Some conn) total (set_cache cache w)
                  | (Ok all_collections, cache) =>
                      let filtered :=
                        if nonempty prefixes
                        then restrict prefixes (as_catalog all_collections)
                        else as_catalog all_collections in
                      BuildEnd (Ok tt) (Some conn) total
                        (World cache (cache_index w) (bundle_index w)
                           (Some (Valid (Catalog filtered))))
                  end
                else BuildEnd (Ok tt) (Some conn) total w
            end
        end
  end.

End Builder.

(** *** The rest of the command line *)

(** Lines 323-324 of [get_svg]: an argument that contains a colon is split
    at the first one into prefix and name. [None] stands for the other
    branch, the lookup of the argument as a prefix in the index (lines
    326-336). *)
Definition split_icon_id (arg : string) : option (string * string) :=
  if contains ":" arg
  then match split_once ":" arg with
       | (prefix, Some name) => Some (prefix, name)
       | (_, None) => None
       end
  else None.

Section Doctor.

Variable md5_hexdigest : string -> string.
Variable urlopen : string -> response.

(** [doctor()]: the five checks in the order of the source, and the exit
    status. [ensure_cache_dir()] has created the directory, so the first
    check holds; the network is asked only without a bundled index. The
    cache directory is returned with the status. *)
Definition doctor (w : world) : Z * gmap string file :=
  let cache_ok := true in
  let bundled_ok := has_bundled_index w in
  let cache_index_ok := bool_decide (is_Some (cache_index w)) in
  let '(network_ok, cache) :=
    if negb bundled_ok
    then match load_collections md5_hexdigest urlopen (bundle_metadata w)
                 (cache w) with
         | (Ok collections, cache) =>
             (bool_decide (0 < length (as_catalog collections))%nat, cache)
         | (Raise _, cache) => (false, cache)
         end
    else (true, cache w) in
  let deps_ok := true in
  let checks :=
    [cache_ok; bundled_ok; cache_index_ok; network_ok; deps_ok] in
  (if forallb (fun ok => ok) checks then 0 else 1, cache).

End Doctor.

End iconify_cli.

(** ** scripts/build_index.py *)

Module build_index_py.

Import Py.

(** Storing [d] as the alias dict of the entry [name]: what an in-place
    update of the object returned by [icon.get("aliases")] does to the
    table. *)
Definition set_aliases (icons : icon_table) (name : string) (d : alias_dict)
  : icon_table :=
  (fun kv : string * icon =>
     if String.eqb kv.1 name
     then (kv.1, Icon (get_parent kv.2) (Some d) (get_body kv.2) (get_width kv.2)
                   (get_height kv.2))
     else kv) <$> icons.

(** Lines 104-108: the [while parent] loop for the icon [name]. [own] tells
    whether [aliases] is the dict stored in the icon (the key is present)
    or the fresh [{}] of the default; in the first case every update is an
    update of the table. [fuel] bounds the number of iterations. *)
Fixpoint flatten_loop (fuel : nat) (icons : icon_table) (name : string)
  (own : bool) (aliases : alias_dict) (parent : option string)
  : option (icon_table * alias_dict) :=
  if truthy parent
  then
    match fuel with
    | O => None
    | S fuel' =>
        let parent_icon :=
          default empty_icon (dict_get icons (default "" parent)) in
        let parent_aliases := default [] (get_aliases parent_icon) in
        let aliases := dict_update aliases parent_aliases in
        let icons := if own then set_aliases icons name aliases else icons in
        flatten_loop fuel' icons name own aliases (get_parent parent_icon)
    end
  else Some (icons, aliases).

(** Lines 102-110 for one icon: the flattened alias dict and the table as
    the loop leaves it. *)
Definition flatten_aliases (fuel : nat) (icons : icon_table) (name : string)
  : option (icon_table * alias_dict) :=
  let icon := default empty_icon (dict_get icons name) in
  flatten_loop fuel icons name (bool_decide (is_Some (get_aliases icon)))
    (default [] (get_aliases icon)) (get_parent icon).

(** Lines 99-123: the loop over [icons.items()], by name; the entry of a
    name is read from the table as earlier iterations left it. *)
Fixpoint index_icons (fuel : nat) (prefix license_title : string)
  (names : list string) (icons : icon_table) (conn : connection) (count : nat)
  : option (icon_table * connection * nat) :=
  match names with
  | [] => Some (icons, conn, count)
  | name :: rest =>
      let full_id := full_id_of prefix name in
      '(icons, aliases) ← flatten_aliases fuel icons name;
      let alias_str := join " " (keys aliases) in
      let conn :=
        insert_icons (IconRow prefix name full_id alias_str license_title)
          conn in
      let conn :=
        insert_icons_fts
          (FtsRow prefix name full_id (name +:+ " " +:+ alias_str)) conn in
      index_icons fuel prefix license_title rest icons conn (S count)
  end.

(** Lines 94-125 for one fetched document. *)
Definition index_document (fuel : nat) (prefix : string) (data : icon_set)
  (conn : connection) : option (connection * nat) :=
  let icons := default [] (get_icons data) in
  let license_title := default "Unknown" (get_license_title data) in
  '(_, conn, count) ←
    index_icons fuel prefix license_title (keys icons) icons conn 0;
  Some (conn, count).

(** [sorted(collections.keys())]: by code points. *)
Definition sorted_keys {V} (d : list (string * V)) : list string :=
  merge_sort String.le (keys d).

(** What [build_index] of this script leaves: its return value, the
    counters it printed, and the files. *)
Record report : Type := Report {
  exit_code : Z;
  total_icons : nat;
  errors : list (string * exn);
  world_after : world
}.

Section Builder.

Variable md5_hexdigest : string -> string.
Variable urlopen : string -> response.

(** Lines 90-130. An exception that the inner [except] clause does not
    name leaves the loop; [None] is a loop that ran out of fuel. *)
Fixpoint index_collections (fuel : nat) (cache : gmap string file)
  (prefixes : list string) (conn : connection) (total_icons : nat)
  (errors : list (string * exn))
  : option (res (connection * nat * list (string * exn)) * gmap string file) :=
  match prefixes with
  | [] => Some (Ok (conn, total_icons, errors), cache)
  | prefix :: rest =>
      match iconify_cli.http_get md5_hexdigest urlopen cache
              (iconify_cli.GITHUB_COLLECTION_URL +:+ "/" +:+ prefix +:+ ".json")
      with
      | (Ok data, cache) =>
          '(conn, count) ← index_document fuel prefix (as_icon_set data) conn;
          index_collections fuel cache rest conn (total_icons + count)%nat
            errors
      | (Raise e, cache) =>
          if caught e [URLError; HTTPError; KeyError; JSONDecodeError]
          then index_collections fuel cache rest conn total_icons
                 (errors ++ [(prefix, e)])
          else Some (Raise e, cache)
      end
  end.

(** [build_index(prefixes, force)]. The progress messages, the write of
    [index_meta.json] and the [CREATE INDEX] after the commit are left out:
    none of them changes a row. *)
Definition build_index (fuel : nat) (w : world)
  (prefixes : option (list string)) (force : bool) : option report :=
  if bool_decide (is_Some (cache_index w)) && negb force
  then Some (Report 0 0 [] w)
  else
    let conn := delete_all (connect (cache_index w)) in
    match iconify_cli.http_get md5_hexdigest urlopen (cache w)
            iconify_cli.COLLECTIONS_URL with
    | (Raise e, cache) =>
        Some (Report 1 0 []
                (iconify_cli.set_cache cache
                   (iconify_cli.set_index false (close conn) w)))
    | (Ok collections, cache) =>
        let collections := as_catalog collections in
        let collections :=
          if iconify_cli.nonempty prefixes
          then iconify_cli.restrict prefixes collections else collections in
        r ← index_collections fuel cache (sorted_keys collections) conn 0 [];
        match r with
        | (Raise e, cache) =>
            Some (Report 1 0 []
                    (iconify_cli.set_cache cache
                       (iconify_cli.set_index false (close conn) w)))
        | (Ok (conn, total_icons, errors), cache) =>
            let conn := commit conn in
            Some (Report 0 total_icons errors
                    (iconify_cli.set_cache cache
                       (iconify_cli.set_index false (close conn) w)))
        end
    end.

End Builder.

(** [show_stats()]: the two counts it prints, [COUNT( * )] of [icons] and
    [COUNT(DISTINCT prefix)]; [None] is its refusal without an index
    file. *)
Definition show_stats (w : world) : option (nat * nat) :=
  t ← cache_index w;
  Some (length (icons_tbl t),
        length (remove_dups (r_prefix <$> icons_tbl t))).

End build_index_py.

(** ** scripts/update_bundled_data.py *)

Module update_bundled_data.

Import Py.

Definition GITHUB_RAW : string :=
  "https://raw.githubusercontent.com/iconify/icon-sets/master/json".

Section Builder.

Variable urlopen : string -> response.

(** This script's own [http_get]: no cache. *)
Definition http_get (url : string) : res document :=
  match urlopen url with
  | Body d => Ok d
  | Fails e =>
      if caught e [URLError; HTTPError; JSONDecodeError]
      then Raise RuntimeError
      else Raise e
  end.

(** Lines 92-131. The body of the [try] (lines 99-125) is the loop of
    build_index.py line for line, and shares its embedding. *)
Fixpoint index_collections (fuel : nat) (prefixes : option (list string))
  (sorted : list string) (conn : connection) (total_icons : nat)
  : option (res (connection * nat)) :=
  match sorted with
  | [] => Some (Ok (conn, total_icons))
  | prefix :: rest =>
      if negb (iconify_cli.in_prefixes prefixes prefix)
      then index_collections fuel prefixes rest conn total_icons
      else
        match http_get (GITHUB_RAW +:+ "/" +:+ prefix +:+ ".json") with
        | Ok data =>
            '(conn, count) ←
              build_index_py.index_document fuel prefix (as_icon_set data)
                conn;
            index_collections fuel prefixes rest conn
              (total_icons + count)%nat
        | Raise e =>
            if caught e [Exception]
            then index_collections fuel prefixes rest conn total_icons
            else Some (Raise e)
        end
  end.

(** [build_index(collections, prefixes)]: the number of icons indexed and
    the index file [data/icons.db] it leaves. *)
Definition build_index (fuel : nat) (index_db : option tables)
  (collections : catalog) (prefixes : option (list string))
  : option (res nat * tables) :=
  let conn := delete_all (connect index_db) in
  r ← index_collections fuel prefixes
         (build_index_py.sorted_keys collections) conn 0;
  match r with
  | Raise e => Some (Raise e, close conn)
  | Ok (conn, total_icons) =>
      let conn := commit conn in
      Some (Ok total_icons, close conn)
  end.

(** [verify_bundle]'s test on the index file (lines 198-209). *)
Definition count_mismatch (t : tables) : bool :=
  negb (length (icons_tbl t) =? length (icons_fts t))%nat.

End Builder.

(** *** The bundle *)

Definition ICONIFY_API : string := "https://api.iconify.design".
Definition COLLECTIONS_URL : string := ICONIFY_API +:+ "/collections".

(** The files of the script's [data] directory; the archive holds copies
    of the other two and the icon count of its [version.json]. *)
Record data_dir : Type := DataDir {
  INDEX_DB : option tables;
  METADATA_FILE : option catalog;
  BUNDLE_ZIP : option (tables * catalog * nat)
}.

(** [save_metadata(collections, prefixes)] *)
Definition save_metadata (collections : catalog)
  (prefixes : option (list string)) (d : data_dir) : data_dir :=
  let filtered :=
    if iconify_cli.nonempty prefixes
    then iconify_cli.restrict prefixes collections else collections in
  DataDir (INDEX_DB d) (Some filtered) (BUNDLE_ZIP d).

(** [get_bundled_count()] *)
Definition get_bundled_count (d : data_dir) : nat :=
  match INDEX_DB d with
  | Some t => length (icons_tbl t)
  | None => O
  end.

(** [create_bundle()]: archiving a missing file raises. *)
Definition create_bundle (d : data_dir) : res data_dir :=
  match INDEX_DB d, METADATA_FILE d with
  | Some t, Some m =>
      Ok (DataDir (INDEX_DB d) (METADATA_FILE d)
            (Some (t, m, get_bundled_count d)))
  | _, _ => Raise OSError
  end.

(** The entries of [issues] in [verify_bundle]. *)
Inductive issue : Type :=
| IndexNotFound
| IconsEmpty
| FtsEmpty
| CountMismatch (count fts_count : nat)
| MetadataNotFound.

(** Lines 190-215 of [verify_bundle]: the list of issues. *)
Definition bundle_issues (d : data_dir) : list issue :=
  match INDEX_DB d with
  | None => [IndexNotFound]
  | Some t =>
      let count := length (icons_tbl t) in
      let fts_count := length (icons_fts t) in
      (if (count =? 0)%nat then [IconsEmpty] else [])
      ++ (if (fts_count =? 0)%nat then [FtsEmpty] else [])
      ++ (if negb (count =? fts_count)%nat
          then [CountMismatch count fts_count] else [])
  end
  ++ match METADATA_FILE d with
     | None => [MetadataNotFound]
     | Some _ => []
     end.

(** [verify_bundle()]: true without issues. *)
Definition verify_bundle (d : data_dir) : bool :=
  match bundle_issues d with
  | [] => true
  | _ :: _ => false
  end.

Section Main.

Variable urlopen : string -> response.

(** [main()] once the arguments are parsed: [verify] is [--verify],
    [prefixes] the list made of [--collections]. An exception that leaves
    [main] is returned as such. *)
Definition main (fuel : nat) (verify : bool) (prefixes : option (list string))
  (d : data_dir) : option (res Z * data_dir) :=
  if verify then Some (Ok 0, d)
  else
    match http_get urlopen COLLECTIONS_URL with
    | Raise e => Some (Raise e, d)
    | Ok collections =>
        let collections := as_catalog collections in
        let d := save_metadata collections prefixes d in
        r ← build_index urlopen fuel (INDEX_DB d) collections prefixes;
        let d := DataDir (Some r.2) (METADATA_FILE d) (BUNDLE_ZIP d) in
        match r.1 with
        | Raise e => Some (Raise e, d)
        | Ok total_icons =>
            match create_bundle d with
            | Raise e => Some (Raise e, d)
            | Ok d => Some (Ok (if verify_bundle d then 0 else 1), d)
            end
        end
    end.

End Main.

End update_bundled_data.

(** * The vocabulary of the properties *)

Section Vocabulary.

Import Py.

(** Occurrence of [pat] in [s] up to case: some substring of [s] lowers to
    [pat]. *)
Definition occurs_ci (pat s : string) : Prop :=
  exists pre mid post, s = pre +:+ mid +:+ post /\ lower mid = pat.

(** The denylist in the words of the specification: a script-element
    opening tag, an [onload=] attribute, or an [href] attribute whose
    quoted value starts with [http], each up to case. *)
Definition unsafe_body (body : string) : Prop :=
  occurs_ci "<script" body
  \/ occurs_ci "onload=" body
  \/ occurs_ci ("href=" +:+ dquote +:+ "http") body
  \/ occurs_ci ("href=" +:+ squote +:+ "http") body.

(** The document shell and the grouping element, as the specification
    words them. *)
Definition shell (width height size : Z) (inner : string) : string :=
  "<svg xmlns=" +:+ dquote +:+ "http://www.w3.org/2000/svg" +:+ dquote
  +:+ newline
  +:+ "viewBox=" +:+ dquote +:+ "0 0 " +:+ str_int width +:+ " "
  +:+ str_int height +:+ dquote
  +:+ newline
  +:+ "width=" +:+ dquote +:+ str_int size +:+ dquote
  +:+ " height=" +:+ dquote +:+ str_int size +:+ dquote +:+ ">"
  +:+ newline +:+ inner +:+ newline +:+ "</svg>".

(** [inner] inside a grouping element with a fill override. *)
Definition group (color inner : string) : string :=
  "<g fill=" +:+ dquote +:+ color +:+ dquote +:+ ">"
  +:+ newline +:+ inner +:+ newline +:+ "</g>".

(** [if color and color != "currentColor"] as a proposition. *)
Definition color_applies (color : option string) (c : string) : Prop :=
  color = Some c /\ c <> "" /\ c <> "currentColor".



Section Chains.

(** A parent map on names, its iteration, and the two shapes a chain from
    [start] can have: it reaches a name without parent, or it runs into a
    cycle. *)
Variable next : string -> option string.

Fixpoint ancestor (k : nat) (name : string) : option string :=
  match k with
  | O => Some name
  | S k' => next name ≫= ancestor k'
  end.

Definition chain_ends (start : string) : Prop :=
  exists k last, ancestor k start = Some last /\ next last = None.

Definition cycle_reachable (start : string) : Prop :=
  exists k p c,
    ancestor k start = Some c /\ (0 < p)%nat /\ ancestor p c = Some c.

End Chains.

(** [icons.get(name, {})] *)
Definition entry (icons : icon_table) (name : string) : icon :=
  default empty_icon (dict_get icons name).

(** The parent map [resolve_aliases] follows: the key is present. *)
Definition parent_name (icons : icon_table) (name : string) : option string :=
  get_parent (entry icons name).

(** The parent map the build-time loop follows: the value is truthy. *)
Definition truthy_parent (icons : icon_table) (name : string)
  : option string :=
  if truthy (get_parent (entry icons name))
  then get_parent (entry icons name) else None.

(** The entry [ic] with [d] as its alias dict. *)
Definition with_aliases (d : alias_dict) (ic : icon) : icon :=
  Icon (get_parent ic) (Some d) (get_body ic) (get_width ic) (get_height ic).

(** Two tables with the same parent references. *)
Definition same_parents (a b : icon_table) : Prop :=
  forall k, get_parent (entry a k) = get_parent (entry b k).

(** The [(prefix, name, full_id)] of a row of either table, and the one a
    build gives to an icon. *)
Definition icon_key (r : icon_row) : string * string * string :=
  (r_prefix r, r_name r, r_full_id r).

Definition fts_key (r : fts_row) : string * string * string :=
  (f_prefix r, f_name r, f_full_id r).

Definition id_of (pn : string * string) : string * string * string :=
  (pn.1, pn.2, full_id_of pn.1 pn.2).

(** Both tables hold, row for row, the identifiers of the (prefix, name)
    pairs [ps]. *)
Definition paired (t : tables) (ps : list (string * string)) : Prop :=
  icon_key <$> icons_tbl t = id_of <$> ps
  /\ fts_key <$> icons_fts t = id_of <$> ps.

(** One pass over the sorted prefixes, as both builders make it: a prefix
    is either passed over (filtered out, or its fetch failed softly), or
    its document, whose icon names are distinct, is indexed. *)
Inductive indexed (fuel : nat)
  : list string -> connection -> nat -> connection -> nat -> Prop :=
| indexed_nil conn n : indexed fuel [] conn n conn n
| indexed_skip prefix rest conn n conn' n' :
    indexed fuel rest conn n conn' n' ->
    indexed fuel (prefix :: rest) conn n conn' n'
| indexed_doc prefix rest data conn n conn1 count conn' n' :
    NoDup (keys (default [] (get_icons data))) ->
    build_index_py.index_document fuel prefix data conn = Some (conn1, count) ->
    indexed fuel rest conn1 (n + count) conn' n' ->
    indexed fuel (prefix :: rest) conn n conn' n'.

(** A JSON object has each key once: the catalog has distinct prefixes and
    an icon table distinct names. *)
Definition wf_document (d : document) : Prop :=
  match d with
  | Catalog c => NoDup (keys c)
  | IconSet s => NoDup (keys (default [] (get_icons s)))
  end.

Definition wf_cache (cache : gmap string file) : Prop :=
  forall k d, cache !! k = Some (Valid d) -> wf_document d.

Definition wf_net (urlopen : string -> response) : Prop :=
  forall url d, urlopen url = Body d -> wf_document d.

(** The row-count invariant of the specification, for tables that hold
    [total] records. *)
Definition rows_agree (t : tables) (total : nat) : Prop :=
  length (icons_tbl t) = length (icons_fts t)
  /\ length (icons_tbl t) = total
  /\ icon_key <$> icons_tbl t = fts_key <$> icons_fts t
  /\ Forall (fun r => r_full_id r = full_id_of (r_prefix r) (r_name r))
       (icons_tbl t)
  /\ forall r, r ∈ icons_tbl t ->
       length (filter (fun r' => icon_key r' = icon_key r) (icons_tbl t))
       = 1%nat
       /\ length (filter (fun r' => fts_key r' = icon_key r) (icons_fts t))
          = 1%nat.

End Vocabulary.

(** ** What SQLite makes of the statement of [search_index] *)

Section SQLite.

Import Py iconify_cli.

(** A prefix that reads back as the string literal it is pasted into: it
    has no single quote, which would end the literal, and no NUL
    character, which the driver refuses in a statement. *)
Fixpoint literal_safe (p : string) : bool :=
  match p with
  | EmptyString => true
  | String c p' =>
      negb (Ascii.eqb c "'") && negb (Ascii.eqb c Ascii.zero)
      && literal_safe p'
  end.

Definition statement_safe (prefixes : option (list string)) : Prop :=
  Forall (fun p => literal_safe p = true) (default [] prefixes).

(** An [int] that SQLite binds as a parameter: it fits 64 bits. *)
Definition sqlite_integer (n : Z) : Prop := - 2 ^ 63 <= n < 2 ^ 63.

(** The full-text engine: for an expression and the rows of [icons_fts] it
    answers the rows that match with their bm25 score, best first, or
    raises on an expression it rejects. *)
Variable Score : Type.
Variable fts5_match : string -> list fts_row -> res (list (fts_row * Score)).

(** The rows of the SELECT that the statement text spells when every
    pasted prefix is a string literal: the matches of the expression whose
    prefix is in the list, best first, cut by [LIMIT]. A [LIMIT 0] ends
    the statement before the engine is asked. *)
Definition select_rows (prefixes : option (list string))
  (search_query : string) (limit : Z) (index : tables)
  : res (list (string * string * Score)) :=
  if limit =? 0 then Ok []
  else
    ranked ← fts5_match search_query (icons_fts index);
    Ok (sql_limit limit
          ((fun rs => (f_prefix rs.1, f_name rs.1, rs.2))
             <$> filter (fun rs => in_prefixes prefixes (f_prefix rs.1) = true)
                   ranked)).

(** What is assumed of SQLite: it runs the statement of a safe prefix list
    as that SELECT, for a limit it can bind. Of any other statement text
    or limit nothing is assumed. *)
Definition runs_select
  (sqlite_execute :
     tables -> string -> string * Z -> res (list (string * string * Score)))
  : Prop :=
  forall prefixes, statement_safe prefixes ->
    forall index search_query limit, sqlite_integer limit ->
      sqlite_execute index (select_sql prefixes) (search_query, limit)
      = select_rows prefixes search_query limit index.

(** An engine that meets the assumption: it reads the statements of
    [select_sql] back, an [IN] list as quoted items between commas, and
    rejects every other text. *)
Fixpoint strip_prefix (p s : string) : option string :=
  match p, s with
  | EmptyString, _ => Some s
  | String a p', String b s' =>
      if Ascii.eqb a b then strip_prefix p' s' else None
  | String _ _, EmptyString => None
  end.

Inductive list_state : Type :=
| Opening
| Inside (item : string)
| Closed.

Fixpoint read_list (st : list_state) (items : list string) (s : string)
  : option (list string * string) :=
  match s with
  | EmptyString => None
  | String c s' =>
      match st with
      | Opening =>
          if Ascii.eqb c "'" then read_list (Inside "") items s' else None
      | Inside item =>
          if Ascii.eqb c "'" then read_list Closed (items ++ [item]) s'
          else read_list (Inside (item +:+ String c "")) items s'
      | Closed =>
          if Ascii.eqb c "," then read_list Opening items s'
          else if Ascii.eqb c ")" then Some (items, s')
          else None
      end
  end.

Definition read_statement (sql : string) : option (option (list string)) :=
  rest ← strip_prefix select_head sql;
  match strip_prefix "AND prefix IN (" rest with
  | Some items =>
      '(ps, rest') ← read_list Opening [] items;
      if String.eqb rest' select_tail then Some (Some ps) else None
  | None => if String.eqb rest select_tail then Some None else None
  end.

Definition reference_execute (index : tables) (sql : string)
  (params : string * Z) : res (list (string * string * Score)) :=
  match read_statement sql with
  | Some prefixes => select_rows prefixes params.1 params.2 index
  | None => Raise OperationalError
  end.

End SQLite.

(** * Example inputs *)

Section ExampleInputs.

Import Py.

Definition path_icon : icon :=
  Icon None None (Some "<path d='M10 10'/>") (Some 24) (Some 24).

(** Two collections that both hold the icons [home] and [house]; no index
    file; the catalog comes from the bundled metadata. *)
Definition two_icons : icon_set :=
  IconSetDoc
    (Some [("home", Icon None None (Some "<path d='M1 1'/>") None None);
           ("house", Icon None None (Some "<path d='M2 2'/>") None None)])
    None None.

Definition scan_world : world :=
  World ∅ None None
    (Some (Valid (Catalog [("mdi", CollectionInfo None None);
                           ("bi", CollectionInfo None None)]))).

Definition all_rows (q : string) (rows : list fts_row)
  : res (list (fts_row * Z)) :=
  Ok ((fun r => (r, 0)) <$> rows).

Definition some_url : string := "https://api.iconify.design/collections".

(** Three collections [a], [b], [c]; the catalog and the documents of [a]
    and [c] can be retrieved, the connection for [b] fails; the cache
    directory is empty and there is no index yet. *)
Definition three_collections : catalog :=
  [("a", CollectionInfo None None); ("b", CollectionInfo None None);
   ("c", CollectionInfo None None)].

Definition b_unreachable (url : string) : response :=
  if String.eqb url iconify_cli.COLLECTIONS_URL
  then Body (Catalog three_collections)
  else if String.eqb url (iconify_cli.GITHUB_COLLECTION_URL +:+ "/b.json")
          || String.eqb url (update_bundled_data.GITHUB_RAW +:+ "/b.json")
  then Fails URLError
  else Body (IconSet two_icons).

Definition fresh_world : world := World ∅ None None None.

(** The same, but with a truncated cache file for the document of [b]. *)
Definition truncated_b_world : world :=
  World
    {[ iconify_cli.cache_key (fun url => url)
         (iconify_cli.GITHUB_COLLECTION_URL +:+ "/b.json") := Malformed ]}
    None None None.

(** The catalog and every collection can be retrieved. *)
Definition all_reachable (url : string) : response :=
  if String.eqb url iconify_cli.COLLECTIONS_URL
  then Body (Catalog three_collections)
  else Body (IconSet two_icons).

(** The synthetic cycle A -> B -> C -> A of the specification. *)
Definition cycle3 : icon_table :=
  [("A", Icon (Some "B") (Some [("a", "{}")]) None None None);
   ("B", Icon (Some "C") (Some [("b", "{}")]) None None None);
   ("C", Icon (Some "A") (Some [("c", "{}")]) None None None)].

Definition cycle3_data : icon_set := IconSetDoc (Some cycle3) None None.

Definition parent_p : icon := Icon None (Some [("x", "{}")]) None None None.

(** A child with its own alias dict ... *)
Definition child_own : icon_table :=
  [("p", parent_p);
   ("c", Icon (Some "p") (Some [("y", "{}")]) None None None)].

(** ... and a child without the [aliases] key. *)
Definition child_bare : icon_table :=
  [("p", parent_p); ("c", Icon (Some "p") None None None None)].

End ExampleInputs.

(** * The vocabulary of the further properties *)

Section ScanVocabulary.

Import Py iconify_cli.

(** The hits of one collection without any limit, in document order. *)
Definition matching (query_lower prefix : string)
  (icons : list (string * icon)) : list (string * string) :=
  (fun kv : string * icon => (prefix, kv.1))
    <$> filter (fun kv => icon_matches query_lower kv.1 kv.2 = true) icons.

Variable md5_hexdigest : string -> string.
Variable urlopen : string -> response.

(** All hits of the collections that pass the filter and can be fetched,
    in catalog and document order, with the cache the fetches leave. *)
Fixpoint scan_all (query_lower : string) (prefixes : option (list string))
  (cache : gmap string file) (collections : list string)
  : list (string * string) * gmap string file :=
  match collections with
  | [] => ([], cache)
  | prefix :: rest =>
      if negb (in_prefixes prefixes prefix)
      then scan_all query_lower prefixes cache rest
      else
        match get_prefix_json md5_hexdigest urlopen cache prefix with
        | (Ok data, cache) =>
            let out := scan_all query_lower prefixes cache rest in
            (matching query_lower prefix
               (default [] (get_icons (as_icon_set data))) ++ out.1,
             out.2)
        | (Raise _, cache) => scan_all query_lower prefixes cache rest
        end
  end.


End ScanVocabulary.

Section BuildVocabulary.

(** One pass of a builder over a list of prefixes, with nothing assumed of
    the documents: a prefix is passed over or its document is indexed. *)
Inductive swept (fuel : nat)
  : list string -> connection -> nat -> connection -> nat -> Prop :=
| swept_nil conn n : swept fuel [] conn n conn n
| swept_skip prefix rest conn n conn' n' :
    swept fuel rest conn n conn' n' ->
    swept fuel (prefix :: rest) conn n conn' n'
| swept_doc prefix rest data conn n conn1 count conn' n' :
    build_index_py.index_document fuel prefix data conn = Some (conn1, count) ->
    swept fuel rest conn1 (n + count) conn' n' ->
    swept fuel (prefix :: rest) conn n conn' n'.

(** The prefix column of the two tables. *)
Definition prefix_column (t : tables) : list string := r_prefix <$> icons_tbl t.

Definition fts_prefix_column (t : tables) : list string :=
  f_prefix <$> icons_fts t.

End BuildVocabulary.

(** * Further example inputs *)

Section FurtherExamples.

Import Py.

(** An index file left by an earlier build. *)
Definition stale_index : tables :=
  Tables [IconRow "old" "x" "old:x" "" "MIT"] [FtsRow "old" "x" "old:x" "x "].

Definition stale_world : world := World ∅ (Some stale_index) None None.

(** Both index files are there. *)
Definition bundled_world : world :=
  World ∅ (Some stale_index) (Some stale_index) None.

(** The catalog of [three_collections] in another order. *)
Definition reversed_collections : catalog :=
  [("c", CollectionInfo None None); ("b", CollectionInfo None None);
   ("a", CollectionInfo None None)].

(** An icon whose parent is not in the table. *)
Definition orphan : icon_set :=
  IconSetDoc (Some [("c", Icon (Some "q") None None None None)]) None None.

(** An alias [house] of the icon [home]. *)
Definition aliased : icon_set :=
  IconSetDoc
    (Some [("home", path_icon);
           ("house", Icon (Some "home") None None None None)])
    None None.

Definition empty_dir : update_bundled_data.data_dir :=
  update_bundled_data.DataDir None None None.

End FurtherExamples.

(** * Properties *)

(** ** Strings *)

Section StringFacts.

Import Py.

Lemma append_nil_l (s : string) : "" +:+ s = s.
Proof. reflexivity. Qed.

Lemma append_cons (c : ascii) (a b : string) :
  String c a +:+ b = String c (a +:+ b).
Proof. reflexivity. Qed.

Lemma append_nil_r (s : string) : s +:+ "" = s.
Proof.
  induction s as [|c s IH]; [done |]. by rewrite append_cons, IH.
Qed.

Lemma append_assoc (a b c : string) : (a +:+ b) +:+ c = a +:+ b +:+ c.
Proof.
  induction a as [|x a IH]; [done |]. by rewrite !append_cons, IH.
Qed.

Lemma append_length (a b : string) :
  String.length (a +:+ b) = (String.length a + String.length b)%nat.
Proof.
  induction a as [|x a IH]; [done |]. rewrite append_cons. simpl.
  by rewrite IH.
Qed.

Lemma prefix_spec (needle hay : string) :
  String.prefix needle hay = true <-> exists post, hay = needle +:+ post.
Proof.
  revert hay. induction needle as [|c needle IH]; intros hay.
  - destruct hay; simpl; split; eauto.
  - destruct hay as [|c' hay]; simpl.
    + split; [done | intros [post [=]]].
    + destruct (Ascii.ascii_dec c c') as [->|Hne].
      * rewrite IH. split.
        -- intros [post ->]. by exists post.
        -- intros [post [= ->]]. by exists post.
      * split; [done | intros [post [= ? ?]]; congruence].
Qed.

Lemma contains_spec (needle hay : string) :
  contains needle hay = true
  <-> exists pre post, hay = pre +:+ needle +:+ post.
Proof.
  induction hay as [|c hay IH].
  - change (contains needle "") with (String.prefix needle "" || false).
    rewrite orb_false_r, prefix_spec. split.
    + intros [post ->]. by exists "", post.
    + intros [[|x pre] [post H]]; [by exists post | done].
  - change (contains needle (String c hay))
      with (String.prefix needle (String c hay) || contains needle hay).
    rewrite orb_true_iff, prefix_spec, IH. split.
    + intros [[post ->] | (pre & post & ->)].
      * by exists "", post.
      * by exists (String c pre), post.
    + intros [[|x pre] [post H]].
      * left. by exists post.
      * right. rewrite append_cons in H. injection H as -> ->.
        by exists pre, post.
Qed.

Lemma lower_app (a b : string) : lower (a +:+ b) = lower a +:+ lower b.
Proof.
  induction a as [|x a IH]; [done |]. rewrite append_cons. simpl.
  by rewrite IH.
Qed.

Lemma lower_app_inv (s a b : string) :
  lower s = a +:+ b ->
  exists a' b', s = a' +:+ b' /\ lower a' = a /\ lower b' = b.
Proof.
  revert s. induction a as [|x a IH]; intros s H.
  - by exists "", s.
  - destruct s as [|c s]; [done |]. rewrite append_cons in H. simpl in H.
    injection H as Hc Hs.
    destruct (IH _ Hs) as (a' & b' & -> & <- & <-).
    exists (String c a'), b'. simpl. by rewrite Hc.
Qed.

Lemma contains_lower (pat s : string) :
  contains pat (lower s) = true <-> occurs_ci pat s.
Proof.
  rewrite contains_spec. split.
  - intros (pre & post & H).
    apply lower_app_inv in H as (pre' & rest & -> & _ & H).
    apply lower_app_inv in H as (mid & post' & -> & Hm & _).
    by exists pre', mid, post'.
  - intros (pre & mid & post & -> & <-).
    exists (lower pre), (lower post). by rewrite !lower_app.
Qed.

Lemma match_here_lit (a : string) (p : iconify_cli.pattern) (s : string) :
  iconify_cli.match_here (iconify_cli.lit a ++ p) s = true
  <-> exists s', s = a +:+ s' /\ iconify_cli.match_here p s' = true.
Proof.
  revert s. induction a as [|c a IH]; intros s.
  - simpl. split; [by exists s | by intros (s' & -> & H)].
  - change (iconify_cli.lit (String c a) ++ p)
      with ([c] :: (iconify_cli.lit a ++ p)).
    destruct s as [|c' s]; simpl.
    + split; [done | by intros (s' & [=] & _)].
    + rewrite andb_true_iff, bool_decide_eq_true, IH, list_elem_of_singleton.
      split.
      * intros [-> (s' & -> & H)]. by exists s'.
      * intros (s' & [= -> ->] & H). split; [done | by exists s'].
Qed.

Lemma re_search_spec (p : iconify_cli.pattern) (s : string) :
  iconify_cli.re_search p s = true
  <-> exists pre post,
        s = pre +:+ post /\ iconify_cli.match_here p post = true.
Proof.
  induction s as [|c s IH].
  - change (iconify_cli.re_search p "")
      with (iconify_cli.match_here p "" || false).
    rewrite orb_false_r. split.
    + intros H. by exists "", "".
    + intros ([|x pre] & post & Hs & H).
      * rewrite append_nil_l in Hs. by subst post.
      * by rewrite append_cons in Hs.
  - change (iconify_cli.re_search p (String c s))
      with (iconify_cli.match_here p (String c s)
            || iconify_cli.re_search p s).
    rewrite orb_true_iff, IH. split.
    + intros [H | (pre & post & -> & H)].
      * by exists "", (String c s).
      * by exists (String c pre), post.
    + intros ([|x pre] & post & Hs & H).
      * left. by rewrite Hs.
      * right. rewrite append_cons in Hs. injection Hs as -> ->.
        by exists pre, post.
Qed.

End StringFacts.

(** ** SVG assembler: the safety gate *)

Section SanitizeFacts.

Import Py iconify_cli.

Lemma match_here_class (cls : list ascii) (p : pattern) (s : string) :
  match_here (cls :: p) s = true
  <-> exists c s', s = String c s' /\ c ∈ cls /\ match_here p s' = true.
Proof.
  destruct s as [|c s]; simpl.
  - split; [done | by intros (c & s' & [=] & _)].
  - rewrite andb_true_iff, bool_decide_eq_true. split.
    + intros [Hc H]. by exists c, s.
    + by intros (c' & s' & [= -> ->] & Hc & H).
Qed.

Lemma re_search_href_http (s : string) :
  re_search href_http s = true
  <-> contains ("href=" +:+ dquote +:+ "http") s = true
      \/ contains ("href=" +:+ squote +:+ "http") s = true.
Proof.
  rewrite re_search_spec, !contains_spec. unfold href_http. split.
  - intros (pre & post & -> & H).
    apply match_here_lit in H as (s1 & -> & H).
    apply match_here_class in H as (q & s2 & -> & Hq & H).
    rewrite <- (app_nil_r (lit "http")) in H.
    apply match_here_lit in H as (s3 & -> & _).
    apply list_elem_of_In in Hq. destruct Hq as [<- | [<- | []]].
    + left. by exists pre, s3.
    + right. by exists pre, s3.
  - intros [(pre & post & ->) | (pre & post & ->)].
    + exists pre, (("href=" +:+ dquote +:+ "http") +:+ post). split; [done |].
      apply match_here_lit. exists (dquote +:+ "http" +:+ post).
      split; [done |]. apply match_here_class.
      exists (ascii_of_nat 34), ("http" +:+ post).
      split; [done |]. split; [set_solver |].
      rewrite <- (app_nil_r (lit "http")). apply match_here_lit. by exists post.
    + exists pre, (("href=" +:+ squote +:+ "http") +:+ post). split; [done |].
      apply match_here_lit. exists (squote +:+ "http" +:+ post).
      split; [done |]. apply match_here_class.
      exists (ascii_of_nat 39), ("http" +:+ post).
      split; [done |]. split; [set_solver |].
      rewrite <- (app_nil_r (lit "http")). apply match_here_lit. by exists post.
Qed.

Lemma sanitize_svg_false (body : string) :
  sanitize_svg body = false <-> unsafe_body body.
Proof.
  unfold sanitize_svg, unsafe_body.
  rewrite <- !contains_lower, <- re_search_href_http.
  destruct (contains "<script" (lower body)),
    (contains "onload=" (lower body)),
    (re_search href_http (lower body)); intuition congruence.
Qed.

Lemma occurs_ci_nonempty (pat body : string) :
  pat <> "" -> occurs_ci pat body -> body <> "".
Proof.
  intros Hpat (pre & mid & post & -> & Hmid) Hnil.
  destruct pre; [| done]. destruct mid; [| done]. by subst pat.
Qed.

Lemma unsafe_body_nonempty (body : string) : unsafe_body body -> body <> "".
Proof.
  intros [H | [H | [H | H]]]; revert H; by apply occurs_ci_nonempty.
Qed.

End SanitizeFacts.

Section AssemblerFacts.

Import Py iconify_cli.

(** C6. A body that contains a script-element opening tag, an [onload=]
    attribute or an [href] attribute quoting an [http] resource, matched up
    to case, is exactly a body that [sanitize_svg] refuses; for such a body
    [get_svg] prints its refusal and no markup; every other body passes the
    gate. *)
Theorem sanitize_svg_denylist (body : string) :
  (sanitize_svg body = false <-> unsafe_body body)
  /\ (unsafe_body body ->
      forall fuel data name icon size color,
        resolve_aliases fuel data name = Some icon ->
        get_body icon = Some body ->
        get_svg fuel data name size color = Some UnsafeElements)
  /\ (~ unsafe_body body -> sanitize_svg body = true).
Proof.
  split; [apply sanitize_svg_false |]. split.
  - intros Hu fuel data name icon size color Hres Hbody.
    unfold get_svg. rewrite Hres. simpl. f_equal.
    unfold get_svg_icon. rewrite Hbody. simpl.
    rewrite bool_decide_eq_false_2 by (intros ->; discriminate).
    apply unsafe_body_nonempty in Hu as Hne.
    apply String.eqb_neq in Hne. rewrite Hne.
    apply sanitize_svg_false in Hu. by rewrite Hu.
  - intros Hn. destruct (sanitize_svg body) eqn:E; [done |].
    by apply sanitize_svg_false in E.
Qed.

Lemma sanitize_svg_denylist_witness :
  get_svg 0
    (IconSetDoc
       (Some [("x", Icon None None (Some "<SCRIPT>x</script>") None None)])
       None None)
    "x" 24 None
  = Some UnsafeElements.
Proof.
  apply (proj1 (proj2 (sanitize_svg_denylist "<SCRIPT>x</script>")))
    with (icon := Icon None None (Some "<SCRIPT>x</script>") None None).
  - left. exists "", "<SCRIPT", ">x</script>". split; reflexivity.
  - reflexivity.
  - reflexivity.
Defined.

Lemma shell_length (width height size : Z) (inner : string) :
  String.length (shell width height size inner)
  = (String.length (shell width height size "") + String.length inner)%nat.
Proof. unfold shell. rewrite !append_length. simpl. lia. Qed.

Lemma group_length (color inner : string) :
  (String.length inner < String.length (group color inner))%nat.
Proof. unfold group. rewrite !append_length. simpl. lia. Qed.

End AssemblerFacts.

Section AssemblyTheorems.

Import Py iconify_cli.

Lemma svg_parts_group (body c : string) (width height size : Z) :
  c <> "" -> c <> "currentColor" ->
  join newline (svg_parts body width height size (Some c))
  = shell width height size (group c body).
Proof.
  intros H1 H2. unfold svg_parts. simpl.
  apply String.eqb_neq in H1. rewrite H1. simpl.
  rewrite bool_decide_eq_false_2 by congruence. simpl.
  unfold shell, group, join. simpl. by rewrite !append_assoc.
Qed.

Lemma svg_parts_plain (body : string) (width height size : Z)
  (color : option string) :
  color = None \/ color = Some "" \/ color = Some "currentColor" ->
  join newline (svg_parts body width height size color)
  = shell width height size body.
Proof.
  intros [-> | [-> | ->]]; unfold svg_parts; simpl;
    unfold shell, join; simpl; by rewrite !append_assoc.
Qed.

(** C7, as the code has it. For a body that passed the gate, [get_svg]
    prints the root element with the fixed namespace, the viewBox
    [0 0 width height] and [width] and [height] both [size], with the body
    verbatim inside; the body is wrapped in [<g fill=color>] exactly when a
    color is supplied that is neither empty nor [currentColor], and the two
    shapes never coincide. *)
Theorem get_svg_assembly (icon : icon) (body : string) (size : Z)
  (color : option string) :
  get_body icon = Some body -> body <> "" -> sanitize_svg body = true ->
  let width := default size (get_width icon) in
  let height := default size (get_height icon) in
  (forall c, color_applies color c ->
     get_svg_icon icon size color
     = Markup (shell width height size (group c body)))
  /\ ((forall c, ~ color_applies color c) ->
      get_svg_icon icon size color = Markup (shell width height size body))
  /\ (forall c, shell width height size (group c body)
                <> shell width height size body)
  /\ (exists pre post,
        get_svg_icon icon size color = Markup (pre +:+ body +:+ post)).
Proof.
  intros Hbody Hne Hsafe width height.
  assert (Hsvg : get_svg_icon icon size color
                 = Markup (join newline
                             (svg_parts body width height size color))).
  { unfold get_svg_icon. rewrite Hbody. simpl.
    rewrite bool_decide_eq_false_2 by (intros ->; discriminate).
    apply String.eqb_neq in Hne. by rewrite Hne, Hsafe. }
  assert (Hplain : (forall c, ~ color_applies color c) ->
            color = None \/ color = Some "" \/ color = Some "currentColor").
  { intros Hn. destruct color as [c|]; [| by left].
    destruct (decide (c = "")) as [-> | H1]; [by right; left |].
    destruct (decide (c = "currentColor")) as [-> | H2]; [by right; right |].
    destruct (Hn c). by repeat split. }
  split; [| split; [| split]].
  - intros c (-> & H1 & H2). by rewrite Hsvg, svg_parts_group.
  - intros Hn. by rewrite Hsvg, svg_parts_plain by auto.
  - intros c Heq. apply (f_equal String.length) in Heq.
    rewrite (shell_length _ _ _ (group c body)), (shell_length _ _ _ body) in Heq.
    pose proof (group_length c body). lia.
  - assert (Hin : forall inner,
              exists pre post,
                shell width height size inner = pre +:+ inner +:+ post).
    { intros inner. unfold shell.
      exists ("<svg xmlns=" +:+ dquote +:+ "http://www.w3.org/2000/svg"
              +:+ dquote +:+ newline
              +:+ "viewBox=" +:+ dquote +:+ "0 0 " +:+ str_int width +:+ " "
              +:+ str_int height +:+ dquote +:+ newline
              +:+ "width=" +:+ dquote +:+ str_int size +:+ dquote
              +:+ " height=" +:+ dquote +:+ str_int size +:+ dquote +:+ ">"
              +:+ newline), (newline +:+ "</svg>").
      by rewrite !append_assoc. }
    rewrite Hsvg. destruct color as [c|].
    + destruct (decide (c = "")) as [-> | H1];
        [| destruct (decide (c = "currentColor")) as [-> | H2]].
      * rewrite svg_parts_plain by auto.
        destruct (Hin body) as (pre & post & ->). by exists pre, post.
      * rewrite svg_parts_plain by auto.
        destruct (Hin body) as (pre & post & ->). by exists pre, post.
      * rewrite svg_parts_group by done.
        destruct (Hin (group c body)) as (pre & post & ->).
        exists (pre +:+ "<g fill=" +:+ dquote +:+ c +:+ dquote +:+ ">"
                +:+ newline), (newline +:+ "</g>" +:+ post).
        unfold group. by rewrite !append_assoc.
    + rewrite svg_parts_plain by auto.
      destruct (Hin body) as (pre & post & ->). by exists pre, post.
Qed.

End AssemblyTheorems.

Section AssemblyExamples.

Import Py iconify_cli.

Lemma get_svg_assembly_witness :
  get_svg_icon path_icon 32 None
  = Markup (shell 24 24 32 "<path d='M10 10'/>").
Proof.
  assert (Hne : "<path d='M10 10'/>" <> "") by discriminate.
  destruct (get_svg_assembly path_icon "<path d='M10 10'/>" 32 None
              eq_refl Hne eq_refl) as (_ & H & _).
  apply H. intros c [Hc _]. discriminate.
Defined.

(** The assembled document of the specification's example, spelled out. *)
Example get_svg_example :
  get_svg 0 (IconSetDoc (Some [("home", path_icon)]) None None) "home" 32 None
  = Some (Markup
      ("<svg xmlns=" +:+ dquote +:+ "http://www.w3.org/2000/svg" +:+ dquote
       +:+ newline +:+ "viewBox=" +:+ dquote +:+ "0 0 24 24" +:+ dquote
       +:+ newline +:+ "width=" +:+ dquote +:+ "32" +:+ dquote
       +:+ " height=" +:+ dquote +:+ "32" +:+ dquote +:+ ">"
       +:+ newline +:+ "<path d='M10 10'/>" +:+ newline +:+ "</svg>")).
Proof. reflexivity. Qed.

(** C7 as the specification states it fails for the empty color: it is
    supplied and is not [currentColor], yet the body is not wrapped. *)
Lemma get_svg_empty_color_unwrapped :
  Some "" <> @None string
  /\ Some "" <> Some "currentColor"
  /\ get_svg_icon path_icon 32 (Some "")
     = Markup (shell 24 24 32 "<path d='M10 10'/>")
  /\ get_svg_icon path_icon 32 (Some "")
     <> Markup (shell 24 24 32 (group "" "<path d='M10 10'/>")).
Proof. repeat split; [done | done | vm_compute; discriminate]. Qed.

End AssemblyExamples.

(** ** Query engine *)

Section QueryFacts.

Import Py iconify_cli.




End QueryFacts.

Section QueryTheorems.

Import Py iconify_cli.




Lemma caught_Exception (e : exn) : caught e [Exception] = true.
Proof. by destruct e. Qed.



End QueryTheorems.

Section ReferenceEngine.

Import Py iconify_cli.

Lemma strip_prefix_app (p s : string) : strip_prefix p (p +:+ s) = Some s.
Proof.
  induction p as [|a p IH]; [by destruct s |].
  rewrite append_cons. simpl. by rewrite Ascii.eqb_refl.
Qed.

Lemma read_list_item (p : string) :
  literal_safe p = true ->
  forall item items s,
    read_list (Inside item) items (p +:+ squote +:+ s)
    = read_list Closed (items ++ [item +:+ p]) s.
Proof.
  induction p as [|c p IH]; intros Hsafe item items s.
  - rewrite append_nil_l, append_nil_r. reflexivity.
  - simpl in Hsafe. apply andb_true_iff in Hsafe as [Hc Hsafe].
    apply andb_true_iff in Hc as [Hc _]. apply negb_true_iff in Hc.
    rewrite append_cons. cbn [read_list]. rewrite Hc, IH by done.
    by rewrite append_assoc.
Qed.

Lemma read_list_open (items : list string) (s : string) :
  read_list Opening items (squote +:+ s) = read_list (Inside "") items s.
Proof. reflexivity. Qed.

Lemma read_list_comma (items : list string) (s : string) :
  read_list Closed items ("," +:+ s) = read_list Opening items s.
Proof. reflexivity. Qed.

Lemma read_list_close (items : list string) (s : string) :
  read_list Closed items (")" +:+ s) = Some (items, s).
Proof. reflexivity. Qed.

Lemma read_list_items (ps : list string) :
  forall p items rest,
    Forall (fun p => literal_safe p = true) (p :: ps) ->
    read_list Opening items
      (join "," (quoted <$> p :: ps) +:+ ")" +:+ rest)
    = Some (items ++ p :: ps, rest).
Proof.
  induction ps as [|q ps IH]; intros p items rest Hsafe;
    apply Forall_cons in Hsafe as [Hp Hps].
  - change (join "," (quoted <$> [p])) with (squote +:+ p +:+ squote).
    rewrite !append_assoc, read_list_open, read_list_item by done.
    by rewrite read_list_close.
  - change (join "," (quoted <$> p :: q :: ps))
      with (quoted p +:+ "," +:+ join "," (quoted <$> q :: ps)).
    unfold quoted at 1.
    rewrite !append_assoc, read_list_open, read_list_item by done.
    rewrite read_list_comma, IH by done. by rewrite <- app_assoc.
Qed.

Lemma read_statement_select (prefixes : option (list string)) :
  statement_safe prefixes ->
  read_statement (select_sql prefixes)
  = Some (match prefixes with
          | Some (p :: ps) => Some (p :: ps)
          | _ => None
          end).
Proof.
  intros Hsafe. unfold read_statement, select_sql.
  rewrite strip_prefix_app. cbn [mbind option_bind].
  assert (Hnone : strip_prefix "AND prefix IN (" ("" +:+ select_tail) = None)
    by reflexivity.
  destruct prefixes as [[|p ps]|]; cbn [prefix_clause].
  - rewrite Hnone. by rewrite String.eqb_refl.
  - rewrite !append_assoc, strip_prefix_app.
    rewrite (read_list_items ps p [] select_tail) by exact Hsafe.
    cbn [mbind option_bind app]. by rewrite String.eqb_refl.
  - rewrite Hnone. by rewrite String.eqb_refl.
Qed.

Lemma select_rows_no_prefixes (Score : Type)
  (fts5_match : string -> list fts_row -> res (list (fts_row * Score)))
  (q : string) (limit : Z) (index : tables) :
  select_rows Score fts5_match (Some []) q limit index
  = select_rows Score fts5_match None q limit index.
Proof. reflexivity. Qed.

Lemma reference_runs_select (Score : Type)
  (fts5_match : string -> list fts_row -> res (list (fts_row * Score))) :
  runs_select Score fts5_match (reference_execute Score fts5_match).
Proof.
  intros prefixes Hsafe index q limit _. unfold reference_execute.
  rewrite read_statement_select by done. by destruct prefixes as [[|p ps]|].
Qed.

End ReferenceEngine.

Section SearchEdgeCases.

Import Py iconify_cli.

Variable md5_hexdigest : string -> string.
Variable urlopen : string -> response.
Variable Score : Type.
Variable fts5_match : string -> list fts_row -> res (list (fts_row * Score)).
Variable sqlite_execute :
  tables -> string -> string * Z -> res (list (string * string * Score)).
Hypothesis Hsqlite : runs_select Score fts5_match sqlite_execute.




End SearchEdgeCases.

Section SearchExamples.

Import Py iconify_cli.



End SearchExamples.

(** ** Fetcher *)

Section FetcherTheorems.

Import Py iconify_cli.

Variable md5_hexdigest : string -> string.
Variable urlopen : string -> response.


End FetcherTheorems.

Section FetcherExamples.

Import Py iconify_cli.



End FetcherExamples.

(** ** The builder embedded in the command line *)

Section CliBuilderTheorems.

Import Py iconify_cli.

Variable md5_hexdigest : string -> string.
Variable urlopen : string -> response.

(** C9, as the code has it. No call of the embedded [build_index] inserts a
    record or commits. With [bundle] set it raises a [NameError] at
    [ensure_data_dir], which the module does not define, before a
    connection is opened. Otherwise, when the index file exists and
    [force] is not set, it returns at once. Otherwise it raises the
    [UnboundLocalError] of [collections], with the tables of the open
    transaction cleared, nothing inserted and nothing committed. *)
Theorem cli_build_index_never_builds (w : world) (force bundle : bool)
  (prefixes : option (list string)) :
  let r := build_index md5_hexdigest urlopen w force bundle prefixes in
  inserted r = 0%nat
  /\ (bundle = true ->
      outcome r = Raise NameError /\ conn_end r = None /\ world_end r = w)
  /\ (bundle = false -> is_Some (cache_index w) -> force = false ->
      outcome r = Ok tt /\ conn_end r = None /\ world_end r = w)
  /\ (bundle = false -> cache_index w = None \/ force = true ->
      outcome r = Raise UnboundLocalError
      /\ (exists conn,
            conn_end r = Some conn
            /\ pending conn = no_rows
            /\ on_disk conn = default no_rows (cache_index w))
      /\ world_end r
         = World (cache w) (Some (default no_rows (cache_index w)))
             (bundle_index w) (bundle_metadata w)).
Proof.
  unfold build_index. destruct bundle; simpl.
  - repeat split; done.
  - destruct (cache_index w) as [t|] eqn:Hidx; simpl.
    + destruct force; simpl.
      * split; [by destruct (nonempty prefixes) |].
        split; [done |]. split; [done |]. intros _ _.
        destruct (nonempty prefixes); simpl;
          (split; [done |]; split; [by eexists | done]).
      * split; [done |]. split; [done |].
        split; [done |]. by intros _ [? | ?].
    + split; [by destruct (nonempty prefixes) |].
      split; [done |]. split; [by intros _ [? ?] |]. intros _ _.
      destruct (nonempty prefixes); simpl;
        (split; [done |]; split; [by eexists | done]).
Qed.

End CliBuilderTheorems.

Section CliBuilderExamples.

Import Py iconify_cli.

Lemma cli_build_index_never_builds_witness :
  outcome (build_index (fun url => url) (fun _ => Fails URLError)
             (World ∅ None None None) false false None)
  = Raise UnboundLocalError.
Proof.
  destruct (cli_build_index_never_builds (fun url => url)
              (fun _ => Fails URLError) (World ∅ None None None)
              false false None) as (_ & _ & _ & H).
  by destruct H as [H _]; [| left |].
Defined.

(** C9 as stated fails for two argument combinations: with [bundle] the
    error is raised before any table is cleared (no connection exists),
    and with an existing index and no [force] the call returns without an
    error. *)
Lemma cli_build_index_other_ends :
  (let r := build_index (fun url => url) (fun _ => Fails URLError)
              (World ∅ None None None) true true None in
   outcome r = Raise NameError /\ conn_end r = None)
  /\ outcome (build_index (fun url => url) (fun _ => Fails URLError)
                (World ∅ (Some no_rows) None None) false false None)
     = Ok tt.
Proof. split; [split |]; reflexivity. Qed.

End CliBuilderExamples.

(** ** Index builders: one collection that cannot be fetched *)

Section FailingCollection.

Import Py.

Lemma inner_clause_misses_RuntimeError :
  caught RuntimeError [URLError; HTTPError; KeyError; JSONDecodeError] = false.
Proof. reflexivity. Qed.

(** C2 at the failing input. [http_get] turns the connection error for [b]
    into a [RuntimeError], which the [except] clause of the collection
    loop does not name: the build of build_index.py ends in its outer
    handler with exit code 1, records no soft error, and commits nothing,
    so neither [a] nor [c] is indexed. *)
Theorem build_index_aborts_on_unreachable_collection :
  (iconify_cli.http_get (fun url => url) b_unreachable ∅
     (iconify_cli.GITHUB_COLLECTION_URL +:+ "/b.json")).1
  = Raise RuntimeError
  /\ exists rep,
       build_index_py.build_index (fun url => url) b_unreachable 8
         fresh_world None true = Some rep
       /\ build_index_py.exit_code rep = 1
       /\ build_index_py.errors rep = []
       /\ cache_index (build_index_py.world_after rep) = Some no_rows.
Proof.
  split; [reflexivity |].
  eexists. split; [vm_compute; reflexivity |]. repeat split.
Qed.

(** With a truncated cache file for [b] the error that leaves [http_get]
    is the [JSONDecodeError] of the stale read, which the clause does name:
    the build records one soft error and indexes [a] and [c]. *)
Example build_index_records_named_error :
  exists rep,
    build_index_py.build_index (fun url => url) b_unreachable 8
      truncated_b_world None true = Some rep
    /\ build_index_py.exit_code rep = 0
    /\ build_index_py.errors rep = [("b", JSONDecodeError)]
    /\ build_index_py.total_icons rep = 4%nat.
Proof. eexists. split; [vm_compute; reflexivity |]. repeat split. Qed.

(** The same input on the sibling builder of update_bundled_data.py, whose
    clause is [except Exception]: [a] and [c] are indexed in full. *)
Example bundled_build_index_skips_unreachable_collection :
  update_bundled_data.build_index b_unreachable 8 None three_collections None
  = Some (Ok 4%nat,
          Tables
            [IconRow "a" "home" "a:home" "" "Unknown";
             IconRow "a" "house" "a:house" "" "Unknown";
             IconRow "c" "home" "c:home" "" "Unknown";
             IconRow "c" "house" "c:house" "" "Unknown"]
            [FtsRow "a" "home" "a:home" "home ";
             FtsRow "a" "house" "a:house" "house ";
             FtsRow "c" "home" "c:home" "home ";
             FtsRow "c" "house" "c:house" "house "]).
Proof. vm_compute. reflexivity. Qed.

End FailingCollection.

(** ** Alias resolver: parent chains *)

Section ChainFacts.

Variable next : string -> option string.

Lemma ancestor_add (k m : nat) (a : string) :
  ancestor next (k + m) a = ancestor next k a ≫= ancestor next m.
Proof.
  revert a. induction k as [|k IH]; intros a; simpl; [done |].
  destruct (next a) as [b|]; simpl; [apply IH | done].
Qed.

Lemma ancestor_cycle (p m : nat) (c : string) :
  ancestor next p c = Some c -> ancestor next (m * p) c = Some c.
Proof.
  intros Hp. induction m as [|m IH]; [done |].
  simpl. by rewrite ancestor_add, Hp.
Qed.

Lemma ancestor_prefix (n j : nat) (a : string) :
  is_Some (ancestor next (n + j) a) -> is_Some (ancestor next n a).
Proof.
  rewrite ancestor_add. destruct (ancestor next n a); [by eexists |].
  by intros [? ?].
Qed.

(** A chain that runs into a cycle has an ancestor next at every depth. *)
Lemma cycle_unbounded (start : string) :
  cycle_reachable next start -> forall n, is_Some (ancestor next n start).
Proof.
  intros (k & p & c & Hk & Hp & Hc) n.
  apply (ancestor_prefix n (k + n * p - n)).
  replace (n + (k + n * p - n))%nat with (k + n * p)%nat by nia.
  rewrite ancestor_add, Hk. simpl. rewrite ancestor_cycle by done.
  by eexists.
Qed.

Lemma unbounded_step (start p : string) :
  (forall n, is_Some (ancestor next n start)) -> next start = Some p ->
  forall n, is_Some (ancestor next n p).
Proof. intros H Hp n. specialize (H (S n)). simpl in H. by rewrite Hp in H. Qed.

Lemma unbounded_next (start : string) :
  (forall n, is_Some (ancestor next n start)) -> is_Some (next start).
Proof.
  intros H. specialize (H 1%nat). simpl in H.
  destruct (next start); [by eexists | by destruct H].
Qed.

End ChainFacts.

Section ResolverFacts.

Import Py.

Lemma resolve_loop_eq (fuel : nat) (icons : icon_table) (current : icon) :
  iconify_cli.resolve_loop fuel icons current
  = match get_parent current with
    | None => Some current
    | Some p =>
        match fuel with
        | O => None
        | S fuel' => iconify_cli.resolve_loop fuel' icons (entry icons p)
        end
    end.
Proof. by destruct fuel. Qed.

Lemma resolve_loop_unbounded (icons : icon_table) (start : string) :
  (forall n, is_Some (ancestor (parent_name icons) n start)) ->
  forall fuel, iconify_cli.resolve_loop fuel icons (entry icons start) = None.
Proof.
  intros H fuel. revert start H.
  induction fuel as [|fuel IH]; intros start H;
    destruct (unbounded_next _ _ H) as [p Hp];
    unfold parent_name in Hp; rewrite resolve_loop_eq, Hp; [done |].
  apply IH. by apply (unbounded_step _ start).
Qed.

Lemma resolve_loop_ends (icons : icon_table) (k : nat) (start last : string) :
  ancestor (parent_name icons) k start = Some last ->
  parent_name icons last = None ->
  forall fuel, (k <= fuel)%nat ->
    iconify_cli.resolve_loop fuel icons (entry icons start)
    = Some (entry icons last).
Proof.
  revert start. induction k as [|k IH]; intros start Hk Hlast fuel Hfuel.
  - injection Hk as ->. unfold parent_name in Hlast.
    by rewrite resolve_loop_eq, Hlast.
  - simpl in Hk. destruct (parent_name icons start) as [p|] eqn:Hp; [| done].
    destruct fuel as [|fuel]; [lia |]. unfold parent_name in Hp.
    rewrite resolve_loop_eq, Hp. apply IH; [done | done | lia].
Qed.

Lemma resolve_loop_some (icons : icon_table) (fuel : nat) (start : string)
  (r : icon) :
  iconify_cli.resolve_loop fuel icons (entry icons start) = Some r ->
  chain_ends (parent_name icons) start.
Proof.
  revert start. induction fuel as [|fuel IH]; intros start;
    rewrite resolve_loop_eq;
    destruct (get_parent (entry icons start)) as [p|] eqn:Hp;
    try done; try (intros _; by exists 0%nat, start).
  intros H. destruct (IH _ H) as (k & last & Hk & Hlast).
  exists (S k), last. split; [| done]. cbn [ancestor].
  change (parent_name icons start) with (get_parent (entry icons start)).
  by rewrite Hp.
Qed.

End ResolverFacts.

Section FlattenFacts.

Import Py build_index_py.

Lemma flatten_loop_eq (fuel : nat) (icons : icon_table) (name : string)
  (own : bool) (acc : alias_dict) (ptr : option string) :
  flatten_loop fuel icons name own acc ptr
  = if truthy ptr
    then
      match fuel with
      | O => None
      | S fuel' =>
          let parent_icon := entry icons (default "" ptr) in
          let acc' := dict_update acc (default [] (get_aliases parent_icon)) in
          flatten_loop fuel'
            (if own then set_aliases icons name acc' else icons)
            name own acc' (get_parent parent_icon)
      end
    else Some (icons, acc).
Proof. by destruct fuel. Qed.

Lemma dict_get_set_aliases (icons : icon_table) (name : string)
  (d : alias_dict) (k : string) :
  dict_get (set_aliases icons name d) k
  = (fun ic => if String.eqb k name then with_aliases d ic else ic)
      <$> dict_get icons k.
Proof.
  induction icons as [|[k' ic] icons IH]; [done |].
  unfold set_aliases in *. rewrite fmap_cons. simpl.
  destruct (String.eqb_spec k' name) as [-> | Hne]; simpl.
  - destruct (String.eqb_spec name k) as [<- | Hk]; simpl; [| apply IH].
    by rewrite String.eqb_refl.
  - destruct (String.eqb_spec k' k) as [<- | Hk]; simpl; [| apply IH].
    by apply String.eqb_neq in Hne as ->.
Qed.

Lemma entry_set_aliases_other (icons : icon_table) (name : string)
  (d : alias_dict) (k : string) :
  k <> name -> dict_get (set_aliases icons name d) k = dict_get icons k.
Proof.
  intros Hne. rewrite dict_get_set_aliases.
  apply String.eqb_neq in Hne as ->. by destruct (dict_get icons k).
Qed.

Lemma get_parent_set_aliases (icons : icon_table) (name : string)
  (d : alias_dict) (k : string) :
  get_parent (entry (set_aliases icons name d) k) = get_parent (entry icons k).
Proof.
  unfold entry. rewrite dict_get_set_aliases.
  destruct (dict_get icons k) as [ic|]; simpl; [| done].
  by destruct (String.eqb k name).
Qed.

Lemma same_parents_step (a b : icon_table) (own : bool) (name : string)
  (d : alias_dict) :
  same_parents a b ->
  same_parents (if own then set_aliases a name d else a) b.
Proof.
  intros H k. destruct own; [| apply H].
  by rewrite get_parent_set_aliases.
Qed.

Lemma truthy_parent_some (icons : icon_table) (start p : string) :
  truthy_parent icons start = Some p ->
  get_parent (entry icons start) = Some p /\ truthy (Some p) = true.
Proof.
  unfold truthy_parent.
  destruct (truthy (get_parent (entry icons start))) eqn:Ht; [| done].
  intros Hp. by rewrite Hp in Ht.
Qed.

Lemma truthy_parent_none (icons : icon_table) (start : string) :
  truthy_parent icons start = None ->
  truthy (get_parent (entry icons start)) = false.
Proof.
  unfold truthy_parent.
  destruct (truthy (get_parent (entry icons start))) eqn:Ht; [| done].
  intros Hp. by rewrite Hp in Ht.
Qed.

Lemma flatten_loop_unbounded (icons : icon_table) (start : string) :
  (forall n, is_Some (ancestor (truthy_parent icons) n start)) ->
  forall fuel table name own acc,
    same_parents table icons ->
    flatten_loop fuel table name own acc (get_parent (entry icons start))
    = None.
Proof.
  intros H fuel. revert start H.
  induction fuel as [|fuel IH]; intros start H table name own acc Hsame;
    destruct (unbounded_next _ _ H) as [p Hp];
    pose proof (unbounded_step _ _ _ H Hp) as Hnext;
    apply truthy_parent_some in Hp as [Hp Ht];
    rewrite flatten_loop_eq, Hp, Ht; [done |].
  cbn zeta. simpl (default "" (Some p)). rewrite (Hsame p).
  apply IH; [done | by apply same_parents_step].
Qed.

Lemma flatten_loop_ends (icons : icon_table) (k : nat) (start last : string) :
  ancestor (truthy_parent icons) k start = Some last ->
  truthy_parent icons last = None ->
  forall fuel table name own acc,
    (k <= fuel)%nat -> same_parents table icons ->
    is_Some (flatten_loop fuel table name own acc
               (get_parent (entry icons start))).
Proof.
  revert start. induction k as [|k IH];
    intros start Hk Hlast fuel table name own acc Hfuel Hsame.
  - injection Hk as ->. apply truthy_parent_none in Hlast.
    rewrite flatten_loop_eq, Hlast. by eexists.
  - cbn [ancestor] in Hk.
    destruct (truthy_parent icons start) as [p|] eqn:Hp; [| done].
    apply truthy_parent_some in Hp as [Hp Ht].
    destruct fuel as [|fuel]; [lia |].
    rewrite flatten_loop_eq, Hp, Ht. cbn zeta.
    simpl (default "" (Some p)). rewrite (Hsame p).
    apply (IH p); [done | done | lia | by apply same_parents_step].
Qed.

Lemma flatten_loop_some (icons : icon_table) (fuel : nat) (start : string) :
  forall table name own acc r,
    same_parents table icons ->
    flatten_loop fuel table name own acc (get_parent (entry icons start))
    = Some r ->
    chain_ends (truthy_parent icons) start.
Proof.
  revert start. induction fuel as [|fuel IH];
    intros start table name own acc r Hsame; rewrite flatten_loop_eq;
    destruct (truthy (get_parent (entry icons start))) eqn:Ht;
    try done;
    try (intros _; exists 0%nat, start; split; [done |];
         unfold truthy_parent; by rewrite Ht).
  destruct (get_parent (entry icons start)) as [p|] eqn:Hp; [| done].
  cbn zeta. simpl (default "" (Some p)). rewrite (Hsame p). intros H.
  apply IH in H as (k & last & Hk & Hlast); [| by apply same_parents_step].
  exists (S k), last. split; [| done]. cbn [ancestor].
  replace (truthy_parent icons start) with (Some p); [done |].
  unfold truthy_parent. by rewrite Hp, Ht.
Qed.

End FlattenFacts.

Section ResolverTheorems.

Import Py.

Lemma same_parents_refl (icons : icon_table) : same_parents icons icons.
Proof. by intros k. Qed.

(** C1, as the code has it. Neither walk is bounded and neither raises: on
    a table with a parent cycle reachable from the start name,
    [resolve_aliases] and the build-time flattening loop run forever (no
    amount of fuel gives a result); each of them terminates exactly when
    the chain it follows reaches an entry without parent. *)
Theorem parent_walks_unbounded (data : icon_set) (start : string) :
  let icons := default [] (get_icons data) in
  (cycle_reachable (parent_name icons) start ->
   forall fuel, iconify_cli.resolve_aliases fuel data start = None)
  /\ (cycle_reachable (truthy_parent icons) start ->
      forall fuel, build_index_py.flatten_aliases fuel icons start = None)
  /\ (chain_ends (parent_name icons) start
      <-> exists fuel, is_Some (iconify_cli.resolve_aliases fuel data start))
  /\ (chain_ends (truthy_parent icons) start
      <-> exists fuel,
            is_Some (build_index_py.flatten_aliases fuel icons start)).
Proof.
  intros icons. split; [| split; [| split]].
  - intros Hc fuel. apply resolve_loop_unbounded. by apply cycle_unbounded.
  - intros Hc fuel. unfold build_index_py.flatten_aliases.
    apply flatten_loop_unbounded;
      [by apply cycle_unbounded | apply same_parents_refl].
  - split.
    + intros (k & last & Hk & Hlast). exists k.
      unfold iconify_cli.resolve_aliases. fold icons.
      fold (entry icons start).
      rewrite (resolve_loop_ends icons k start last) by done. by eexists.
    + intros (fuel & r & Hr). by apply (resolve_loop_some icons fuel start r).
  - split.
    + intros (k & last & Hk & Hlast). exists k.
      apply (flatten_loop_ends icons k start last);
        [done | done | lia | apply same_parents_refl].
    + intros (fuel & r & Hr). unfold build_index_py.flatten_aliases in Hr.
      eapply flatten_loop_some; [apply same_parents_refl | apply Hr].
Qed.

End ResolverTheorems.

Section ResolverExamples.

Import Py.

Lemma cycle3_reachable :
  cycle_reachable (parent_name cycle3) "A"
  /\ cycle_reachable (truthy_parent cycle3) "A".
Proof. split; exists 0%nat, 3%nat, "A"; repeat split; lia. Qed.

Lemma parent_walks_unbounded_witness :
  (forall fuel, iconify_cli.resolve_aliases fuel cycle3_data "A" = None)
  /\ (forall fuel, build_index_py.flatten_aliases fuel cycle3 "A" = None).
Proof.
  destruct (parent_walks_unbounded cycle3_data "A") as (H1 & H2 & _).
  split; [apply H1 | apply H2]; apply cycle3_reachable.
Defined.

(** C1 as the specification states it fails on its own example: on the
    three-node cycle neither walk terminates, with a [ResolutionError] or
    otherwise. *)
Lemma cycle3_never_terminates :
  ~ (exists fuel, is_Some (iconify_cli.resolve_aliases fuel cycle3_data "A"))
  /\ ~ (exists fuel, is_Some (build_index_py.flatten_aliases fuel cycle3 "A")).
Proof.
  split; intros [fuel [r Hr]].
  - unfold iconify_cli.resolve_aliases in Hr.
    change (default empty_icon
              (dict_get (default [] (get_icons cycle3_data)) "A"))
      with (entry cycle3 "A") in Hr.
    change (default [] (get_icons cycle3_data)) with cycle3 in Hr.
    rewrite resolve_loop_unbounded in Hr; [done |].
    apply cycle_unbounded, cycle3_reachable.
  - unfold build_index_py.flatten_aliases in Hr.
    change (get_parent (default empty_icon (dict_get cycle3 "A")))
      with (get_parent (entry cycle3 "A")) in Hr.
    rewrite flatten_loop_unbounded in Hr;
      [done | apply cycle_unbounded, cycle3_reachable
       | apply same_parents_refl].
Qed.

End ResolverExamples.

(** ** Alias flattening and the icon table *)

Section FlattenFrame.

Import Py build_index_py.

Lemma elem_of_keys_dict_set {V} (d : list (string * V)) (k : string) (v : V)
  (a : string) :
  a ∈ keys (dict_set d k v) <-> a = k \/ a ∈ keys d.
Proof.
  unfold keys. induction d as [|[k' v'] d IH]; simpl.
  - rewrite list_elem_of_singleton, elem_of_nil. tauto.
  - destruct (String.eqb_spec k' k) as [-> | Hne]; simpl.
    + rewrite !elem_of_cons. tauto.
    + rewrite !elem_of_cons, IH. tauto.
Qed.

Lemma elem_of_keys_dict_update {V} (d other : list (string * V)) (a : string) :
  a ∈ keys (dict_update d other) <-> a ∈ keys d \/ a ∈ keys other.
Proof.
  unfold dict_update. revert d.
  induction other as [|[k v] other IH]; intros d; simpl.
  - unfold keys. simpl. rewrite elem_of_nil. tauto.
  - rewrite IH, elem_of_keys_dict_set. unfold keys. simpl.
    rewrite elem_of_cons. tauto.
Qed.

Lemma entry_set_aliases_same (icons : icon_table) (name : string)
  (d : alias_dict) :
  is_Some (dict_get icons name) ->
  get_aliases (entry (set_aliases icons name d) name) = Some d.
Proof.
  intros [ic Hic]. unfold entry.
  by rewrite dict_get_set_aliases, Hic, String.eqb_refl.
Qed.

Lemma set_aliases_is_Some (icons : icon_table) (name : string)
  (d : alias_dict) (k : string) :
  is_Some (dict_get icons k) -> is_Some (dict_get (set_aliases icons name d) k).
Proof. intros [ic Hic]. rewrite dict_get_set_aliases, Hic. by eexists. Qed.

(** What one run of the loop does to the table: entries of other names
    are untouched; with a fresh dict the table is untouched; with the
    icon's own dict the table ends up holding the flattened dict. *)
Lemma flatten_loop_frame (name : string) (own : bool) (fuel : nat) :
  forall table acc ptr table' acc',
    flatten_loop fuel table name own acc ptr = Some (table', acc') ->
    (forall k, k <> name -> dict_get table' k = dict_get table k)
    /\ (own = false -> table' = table)
    /\ (own = true -> is_Some (dict_get table name) ->
        get_aliases (entry table name) = Some acc ->
        get_aliases (entry table' name) = Some acc').
Proof.
  induction fuel as [|fuel IH]; intros table acc ptr table' acc';
    rewrite flatten_loop_eq; destruct (truthy ptr); try done;
    try (intros [= <- <-]; by repeat split).
  cbn zeta. intros H. apply IH in H as (Hother & Hfresh & Hown).
  split; [| split].
  - intros k Hk. rewrite Hother by done.
    destruct own; [by apply entry_set_aliases_other | done].
  - intros ->. by apply Hfresh.
  - intros -> Hin _. apply Hown; [done | by apply set_aliases_is_Some |].
    by apply entry_set_aliases_same.
Qed.

(** The flattened dict holds every key it started from and every alias key
    of every ancestor on the chain, as the original table [icons] has
    them. *)
Lemma flatten_loop_absorbs (icons : icon_table) (name : string) (own : bool)
  (fuel : nat) :
  forall table acc ptr table' acc',
    flatten_loop fuel table name own acc ptr = Some (table', acc') ->
    same_parents table icons ->
    (forall k, k <> name -> dict_get table k = dict_get icons k) ->
    (forall a, a ∈ keys (default [] (get_aliases (entry icons name))) ->
               a ∈ keys acc) ->
    (forall a, a ∈ keys acc -> a ∈ keys acc')
    /\ (forall j p t a,
          ptr = Some p -> p <> "" ->
          ancestor (truthy_parent icons) j p = Some t ->
          a ∈ keys (default [] (get_aliases (entry icons t))) ->
          a ∈ keys acc').
Proof.
  induction fuel as [|fuel IH];
    intros table acc ptr table' acc' H Hsame Hframe Hself;
    rewrite flatten_loop_eq in H; destruct (truthy ptr) eqn:Ht; try done.
  - injection H as <- <-. split; [done |].
    intros j p t a -> Hp. simpl in Ht.
    apply String.eqb_neq in Hp. by rewrite Hp in Ht.
  - cbn zeta in H.
    set (acc1 := dict_update acc
                   (default [] (get_aliases (entry table (default "" ptr)))))
      in H.
    assert (Hgrow : forall a, a ∈ keys acc -> a ∈ keys acc1).
    { intros a Ha. apply elem_of_keys_dict_update. by left. }
    apply IH in H as [Hkeep Hchain];
      [| by apply same_parents_step
       | intros k Hk; destruct own; [| by apply Hframe];
         rewrite entry_set_aliases_other by done; by apply Hframe
       | by intros a Ha; apply Hgrow, Hself].
    split; [by intros a Ha; apply Hkeep, Hgrow |].
    intros j p t a -> Hp Hanc Ha. simpl in Hkeep, Hchain, acc1.
    destruct j as [|j].
    + injection Hanc as ->. apply Hkeep.
      destruct (decide (t = name)) as [-> | Hne]; [by apply Hgrow, Hself |].
      apply elem_of_keys_dict_update. right.
      unfold entry in *. by rewrite Hframe.
    + cbn [ancestor] in Hanc.
      destruct (truthy_parent icons p) as [p1|] eqn:Hp1; [| done].
      apply truthy_parent_some in Hp1 as [Hp1 Ht1].
      apply (Hchain j p1 t a); [| | done | done].
      * by rewrite (Hsame p).
      * intros ->. done.
  - injection H as <- <-. split; [done |].
    intros j p t a -> Hp. simpl in Ht.
    apply String.eqb_neq in Hp. by rewrite Hp in Ht.
Qed.

End FlattenFrame.

Section FlattenTheorems.

Import Py build_index_py.

(** C10, as the code has it. When the loop for an icon terminates, the
    entries of all other names are as before. If the icon has no [aliases]
    key, the dict that is updated is the fresh default and the table is
    left unchanged. If it has one, that dict is updated in place: the table
    then holds the flattened dict for the icon, which keeps the icon's own
    keys and has the alias keys of every ancestor on its chain, so the
    table has changed as soon as an ancestor has an alias the icon had
    not. *)
Theorem flatten_aliases_updates_own_dict (fuel : nat) (icons : icon_table)
  (name : string) (icons' : icon_table) (acc : alias_dict) :
  flatten_aliases fuel icons name = Some (icons', acc) ->
  (forall k, k <> name -> dict_get icons' k = dict_get icons k)
  /\ (get_aliases (entry icons name) = None -> icons' = icons)
  /\ (forall own, get_aliases (entry icons name) = Some own ->
        get_aliases (entry icons' name) = Some acc
        /\ (forall a, a ∈ keys own -> a ∈ keys acc)
        /\ (forall j p t a,
              get_parent (entry icons name) = Some p -> p <> "" ->
              ancestor (truthy_parent icons) j p = Some t ->
              a ∈ keys (default [] (get_aliases (entry icons t))) ->
              a ∈ keys acc /\ (a ∉ keys own -> icons' <> icons))).
Proof.
  unfold flatten_aliases. fold (entry icons name). intros H.
  pose proof (flatten_loop_frame _ _ _ _ _ _ _ _ H)
    as (Hother & Hfresh & Hown).
  pose proof (flatten_loop_absorbs icons _ _ _ _ _ _ _ _ H
                (same_parents_refl icons) (fun k _ => eq_refl)
                (fun a Ha => Ha)) as [Hkeep Hchain].
  split; [done |]. split.
  - intros Hnone. apply Hfresh. rewrite Hnone.
    apply bool_decide_eq_false_2. by intros [? ?].
  - intros own Hsome. rewrite Hsome in *. simpl in *.
    assert (Hstored : get_aliases (entry icons' name) = Some acc).
    { apply Hown; [done | | done].
      unfold entry in Hsome. destruct (dict_get icons name); [by eexists |].
      discriminate. }
    split; [done |]. split; [done |].
    intros j p t a Hp Hne Hanc Ha.
    assert (Hin : a ∈ keys acc) by (by apply (Hchain j p t a)).
    split; [done |]. intros Hnot ->.
    rewrite Hsome in Hstored. by injection Hstored as ->.
Qed.

End FlattenTheorems.

Section FlattenExamples.

Import Py build_index_py.

Lemma flatten_aliases_updates_own_dict_witness :
  get_aliases
    (entry [("p", parent_p);
            ("c", Icon (Some "p") (Some [("y", "{}"); ("x", "{}")])
                    None None None)] "c")
  = Some [("y", "{}"); ("x", "{}")]
  /\ [("p", parent_p);
      ("c", Icon (Some "p") (Some [("y", "{}"); ("x", "{}")]) None None None)]
     <> child_own.
Proof.
  destruct (flatten_aliases_updates_own_dict 2 child_own "c"
              [("p", parent_p);
               ("c", Icon (Some "p") (Some [("y", "{}"); ("x", "{}")])
                       None None None)]
              [("y", "{}"); ("x", "{}")] eq_refl) as (_ & _ & H).
  destruct (H [("y", "{}")] eq_refl) as (Hstored & _ & Hchain).
  split; [exact Hstored |].
  apply (Hchain 0%nat "p" "p" "x"); [done | done | done | | ].
  - apply list_elem_of_In. simpl. by left.
  - intros Hin. apply list_elem_of_In in Hin. simpl in Hin.
    by destruct Hin as [? | []].
Defined.

(** C10 as stated fails for an icon without its own alias dict: its parent
    has aliases, the flattened dict absorbs them, and the icon table is
    left as it was, also by the whole loop over the collection. *)
Lemma flatten_aliases_bare_child_unchanged :
  is_Some (get_aliases (entry child_bare "p"))
  /\ flatten_aliases 2 child_bare "c" = Some (child_bare, [("x", "{}")])
  /\ (fun r => r.1.1)
       <$> index_icons 2 "mdi" "Unknown" (keys child_bare) child_bare
             (connect None) 0
     = Some child_bare.
Proof. split; [by eexists |]. split; reflexivity. Qed.

End FlattenExamples.

(** ** Index builders: the two tables stay paired *)

Section PairedTables.

Import Py build_index_py.

#[local] Instance id_of_inj : Inj (=) (=) id_of.
Proof. intros [p n] [p' n'] [= -> -> _]. done. Qed.

Lemma index_icons_paired (fuel : nat) (prefix license_title : string) :
  forall names icons conn count icons' conn' count' ps,
    index_icons fuel prefix license_title names icons conn count
    = Some (icons', conn', count') ->
    paired (pending conn) ps ->
    paired (pending conn') (ps ++ (pair prefix <$> names))
    /\ count' = (count + length names)%nat
    /\ on_disk conn' = on_disk conn.
Proof.
  induction names as [|name rest IH];
    intros icons conn count icons' conn' count' ps H Hp.
  - injection H as <- <- <-. rewrite app_nil_r. by rewrite Nat.add_0_r.
  - cbn [index_icons] in H.
    destruct (flatten_aliases fuel icons name) as [[icons1 acc]|]; [| done].
    cbn [mbind option_bind] in H.
    apply (IH _ _ _ _ _ _ (ps ++ [(prefix, name)])) in H as (H1 & H2 & H3).
    + rewrite <- app_assoc in H1. split; [done |]. split; [| done].
      rewrite H2. simpl. lia.
    + destruct Hp as [Hi Hf]. split; simpl; rewrite !fmap_app.
      * by rewrite Hi.
      * by rewrite Hf.
Qed.

Lemma index_document_paired (fuel : nat) (prefix : string) (data : icon_set)
  (conn conn' : connection) (count : nat) (ps : list (string * string)) :
  index_document fuel prefix data conn = Some (conn', count) ->
  paired (pending conn) ps ->
  paired (pending conn')
    (ps ++ (pair prefix <$> keys (default [] (get_icons data))))
  /\ count = length (keys (default [] (get_icons data)))
  /\ on_disk conn' = on_disk conn.
Proof.
  unfold index_document. intros H Hp.
  destruct (index_icons fuel prefix (default "Unknown" (get_license_title data))
              (keys (default [] (get_icons data)))
              (default [] (get_icons data)) conn 0)
    as [[[icons' conn1] count1]|] eqn:E; [| done].
  injection H as <- <-.
  by apply (index_icons_paired _ _ _ _ _ _ _ _ _ _ ps) in E.
Qed.

Lemma indexed_paired (fuel : nat) (prefixes : list string)
  (conn : connection) (n : nat) (conn' : connection) (n' : nat) :
  indexed fuel prefixes conn n conn' n' ->
  NoDup prefixes ->
  forall ps, paired (pending conn) ps ->
    exists ps',
      paired (pending conn') (ps ++ ps')
      /\ NoDup ps'
      /\ Forall (fun pn => pn.1 ∈ prefixes) ps'
      /\ n' = (n + length ps')%nat
      /\ on_disk conn' = on_disk conn.
Proof.
  induction 1 as [conn n
                 | prefix rest conn n conn' n' _ IH
                 | prefix rest data conn n conn1 count conn' n' Hnames Hdoc _ IH];
    intros Hnodup ps Hp.
  - exists []. rewrite app_nil_r.
    repeat split;
      [apply Hp.. | constructor | constructor | simpl; lia].
  - apply NoDup_cons in Hnodup as [_ Hrest].
    destruct (IH Hrest ps Hp) as (ps' & H1 & H2 & H3 & H4 & H5).
    exists ps'. repeat split; try done; try apply H1.
    eapply Forall_impl; [done |]. intros pn Hin. by apply elem_of_cons; right.
  - apply NoDup_cons in Hnodup as [Hfresh Hrest].
    apply (index_document_paired _ _ _ _ _ _ ps) in Hdoc as (Hp1 & -> & Hd);
      [| done].
    destruct (IH Hrest _ Hp1) as (ps' & H1 & H2 & H3 & H4 & H5).
    exists ((pair prefix <$> keys (default [] (get_icons data))) ++ ps').
    rewrite <- app_assoc in H1.
    split; [done |]. split; [| split; [| split]].
    + apply NoDup_app. split; [| split; [| done]].
      * apply NoDup_fmap_2; [| done]. by intros a b [=].
      * intros pn Hin Hin'.
        apply list_elem_of_fmap in Hin as (name & -> & _).
        rewrite Forall_forall in H3. by apply H3 in Hin'.
    + apply Forall_app. split.
      * apply Forall_forall. intros pn Hin.
        apply list_elem_of_fmap in Hin as (name & -> & _).
        by apply elem_of_cons; left.
      * eapply Forall_impl; [done |]. intros pn Hin.
        by apply elem_of_cons; right.
    + rewrite H4, length_app, length_fmap. lia.
    + by rewrite H5.
Qed.

End PairedTables.

Section WellFormedDocuments.

Import Py.

Lemma wf_as_icon_set (d : document) :
  wf_document d -> NoDup (keys (default [] (get_icons (as_icon_set d)))).
Proof. destruct d; simpl; [intros _; constructor | done]. Qed.

Lemma wf_as_catalog (d : document) :
  wf_document d -> NoDup (keys (as_catalog d)).
Proof. destruct d; simpl; [done | intros _; constructor]. Qed.

Lemma http_get_wf md5_hexdigest urlopen (cache : gmap string file)
  (url : string) (r : res document) (cache' : gmap string file) :
  wf_cache cache -> wf_net urlopen ->
  iconify_cli.http_get md5_hexdigest urlopen cache url = (r, cache') ->
  wf_cache cache' /\ forall d, r = Ok d -> wf_document d.
Proof.
  intros Hc Hn. unfold iconify_cli.http_get.
  assert (Hnet : iconify_cli.fetch_network md5_hexdigest urlopen cache url
                 = (r, cache') ->
                 wf_cache cache' /\ forall d, r = Ok d -> wf_document d).
  { unfold iconify_cli.fetch_network.
    destruct (urlopen url) as [data | e] eqn:Hurl.
    - intros [= <- <-]. split.
      + intros k d Hk.
        destruct (decide (iconify_cli.cache_key md5_hexdigest url = k))
          as [<- | Hne].
        * rewrite lookup_insert_eq in Hk. injection Hk as <-. by eapply Hn.
        * rewrite lookup_insert_ne in Hk by done. by eapply Hc.
      + intros d [= <-]. by eapply Hn.
    - destruct (caught e _).
      + destruct (cache !! iconify_cli.cache_key md5_hexdigest url)
          as [f|] eqn:Hf.
        * intros [= <- <-]. split; [done |].
          destruct f as [d0 | |]; simpl; intros d [=]. subst. by eapply Hc.
        * intros [= <- <-]. by split.
      + intros [= <- <-]. by split. }
  destruct (cache !! iconify_cli.cache_key md5_hexdigest url) as [f|] eqn:Hf;
    [| done].
  destruct f as [d | |]; simpl; [| done | done].
  intros [= <- <-]. split; [done |]. intros d' [= <-]. by eapply Hc.
Qed.

Lemma NoDup_restrict {V} (prefixes : option (list string))
  (collections : list (string * V)) :
  NoDup (keys collections) ->
  NoDup (keys (iconify_cli.restrict prefixes collections)).
Proof.
  intros H. eapply sublist_NoDup; [done |].
  unfold keys, iconify_cli.restrict. apply fmap_sublist, sublist_filter.
Qed.

Lemma NoDup_sorted_keys {V} (collections : list (string * V)) :
  NoDup (keys collections) -> NoDup (build_index_py.sorted_keys collections).
Proof.
  intros H. unfold build_index_py.sorted_keys.
  by rewrite merge_sort_Permutation.
Qed.

End WellFormedDocuments.

Section BuildersAreIndexed.

Import Py.

Variable md5_hexdigest : string -> string.
Variable urlopen : string -> response.
Hypothesis Hnet : wf_net urlopen.

Lemma py_index_collections_indexed (fuel : nat) :
  forall prefixes cache conn total errs conn' total' errs' cache',
    wf_cache cache ->
    build_index_py.index_collections md5_hexdigest urlopen fuel cache prefixes
      conn total errs
    = Some (Ok (conn', total', errs'), cache') ->
    indexed fuel prefixes conn total conn' total'.
Proof.
  induction prefixes as [|prefix rest IH];
    intros cache conn total errs conn' total' errs' cache' Hc H.
  - injection H as <- <- <- <-. constructor.
  - cbn [build_index_py.index_collections] in H.
    destruct (iconify_cli.http_get md5_hexdigest urlopen cache _)
      as [[data | e] cache1] eqn:Hget;
      apply http_get_wf in Hget as [Hc1 Hd]; try done.
    + destruct (build_index_py.index_document fuel prefix (as_icon_set data)
                  conn) as [[conn1 count]|] eqn:Hdoc; [| done].
      cbn [mbind option_bind] in H.
      eapply indexed_doc; [| exact Hdoc | by eapply IH].
      by apply wf_as_icon_set, Hd.
    + destruct (caught e _); [| done].
      apply indexed_skip. by eapply IH.
Qed.

Lemma bundled_index_collections_indexed (fuel : nat)
  (prefixes : option (list string)) :
  forall sorted conn total conn' total',
    update_bundled_data.index_collections urlopen fuel prefixes sorted conn
      total
    = Some (Ok (conn', total')) ->
    indexed fuel sorted conn total conn' total'.
Proof.
  induction sorted as [|prefix rest IH]; intros conn total conn' total' H.
  - injection H as <- <-. constructor.
  - cbn [update_bundled_data.index_collections] in H.
    destruct (negb (iconify_cli.in_prefixes prefixes prefix));
      [by apply indexed_skip, IH |].
    unfold update_bundled_data.http_get in H.
    destruct (urlopen _) as [data | e] eqn:Hurl.
    + destruct (build_index_py.index_document fuel prefix (as_icon_set data)
                  conn) as [[conn1 count]|] eqn:Hdoc; [| done].
      cbn [mbind option_bind] in H.
      eapply indexed_doc; [| exact Hdoc | by eapply IH].
      by eapply wf_as_icon_set, Hnet.
    + destruct (caught e [URLError; HTTPError; JSONDecodeError]).
      * rewrite caught_Exception in H. by apply indexed_skip, IH.
      * destruct (caught e [Exception]); [| done].
        by apply indexed_skip, IH.
Qed.

End BuildersAreIndexed.

Section RowCounts.

Import Py.

Lemma filter_key_none {A K} `{EqDecision K} (f : A -> K) (l : list A) (x : K) :
  x ∉ f <$> l -> filter (fun r => f r = x) l = [].
Proof.
  induction l as [|a l IH]; [done |]. rewrite fmap_cons, not_elem_of_cons.
  intros [Hne Hnot]. rewrite filter_cons.
  destruct (decide (f a = x)); [congruence | by apply IH].
Qed.

Lemma filter_key_once {A K} `{EqDecision K} (f : A -> K) (l : list A) (x : K) :
  NoDup (f <$> l) -> x ∈ f <$> l ->
  length (filter (fun r => f r = x) l) = 1%nat.
Proof.
  induction l as [|a l IH]; [by intros _ ?%elem_of_nil |].
  rewrite fmap_cons, NoDup_cons, elem_of_cons. intros [Hfresh Hnodup] Hin.
  rewrite filter_cons. destruct (decide (f a = x)) as [<- | Hne].
  - by rewrite filter_key_none.
  - destruct Hin as [-> | Hin]; [done | by apply IH].
Qed.

Lemma paired_rows_agree (t : tables) (ps : list (string * string)) :
  paired t ps -> NoDup ps -> rows_agree t (length ps).
Proof.
  intros [Hi Hf] Hnodup.
  assert (Hids : NoDup (id_of <$> ps)).
  { apply NoDup_fmap_2; [| done]. by intros [p n] [p' n'] [= -> -> _]. }
  split; [| split; [| split; [| split]]].
  - by rewrite <- (length_fmap icon_key), <- (length_fmap fts_key), Hi, Hf.
  - by rewrite <- (length_fmap icon_key), Hi, length_fmap.
  - by rewrite Hi, Hf.
  - apply Forall_forall. intros r Hr.
    apply (list_elem_of_fmap_2 icon_key) in Hr. rewrite Hi in Hr.
    apply list_elem_of_fmap in Hr as ([p n] & Hr & _).
    unfold icon_key, id_of in Hr. simpl in Hr. by injection Hr as -> -> ->.
  - intros r Hr. apply (list_elem_of_fmap_2 icon_key) in Hr.
    split; apply filter_key_once.
    + by rewrite Hi.
    + done.
    + by rewrite Hf.
    + by rewrite Hf, <- Hi.
Qed.

End RowCounts.

Section RowCountTheorem.

Import Py.

Variable md5_hexdigest : string -> string.
Variable urlopen : string -> response.

Lemma paired_no_rows : paired no_rows [].
Proof. by split. Qed.

(** C3. After a build that ran to its commit, the record table and the
    full-text table have the same number of rows, row for row the same
    [(prefix, name, full_id)] with [full_id = prefix:name], and each
    inserted identifier occurs in exactly one row of each table. This
    holds for the builder of build_index.py (exit code 0, index absent or
    [force]) and for the builder of update_bundled_data.py, on documents
    whose objects have distinct keys. *)
Theorem build_index_tables_paired :
  wf_net urlopen ->
  (forall fuel w prefixes force rep,
     wf_cache (cache w) ->
     cache_index w = None \/ force = true ->
     build_index_py.build_index md5_hexdigest urlopen fuel w prefixes force
     = Some rep ->
     build_index_py.exit_code rep = 0 ->
     exists t,
       cache_index (build_index_py.world_after rep) = Some t
       /\ rows_agree t (build_index_py.total_icons rep))
  /\ (forall fuel index_db collections prefixes total t,
        NoDup (keys collections) ->
        update_bundled_data.build_index urlopen fuel index_db collections
          prefixes = Some (Ok total, t) ->
        rows_agree t total /\ update_bundled_data.count_mismatch t = false).
Proof.
  intros Hnet. split.
  - intros fuel w prefixes force rep Hc Hrun H Hexit.
    unfold build_index_py.build_index in H.
    replace (bool_decide (is_Some (cache_index w)) && negb force)
      with false in H.
    2:{ destruct Hrun as [-> | ->]; [done | by rewrite andb_false_r]. }
    destruct (iconify_cli.http_get md5_hexdigest urlopen (cache w) _)
      as [[collections | e] cache1] eqn:Hget;
      apply http_get_wf in Hget as [Hc1 Hd]; try done;
      [| by injection H as <-].
    set (sorted := build_index_py.sorted_keys _) in H.
    assert (Hsorted : NoDup sorted).
    { apply NoDup_sorted_keys.
      destruct (iconify_cli.nonempty prefixes);
        [apply NoDup_restrict |]; by apply wf_as_catalog, Hd. }
    destruct (build_index_py.index_collections md5_hexdigest urlopen fuel
                cache1 sorted _ 0 []) as [[r cache2]|] eqn:Hloop; [| done].
    cbn [mbind option_bind] in H.
    destruct r as [[[conn' total'] errs']| e]; [| by injection H as <-].
    injection H as <-. simpl.
    apply py_index_collections_indexed in Hloop; [| done | done].
    destruct (indexed_paired _ _ _ _ _ _ Hloop Hsorted [] paired_no_rows)
      as (ps & Hp & Hnodup & _ & -> & _).
    eexists. split; [reflexivity |]. by apply paired_rows_agree.
  - intros fuel index_db collections prefixes total t Hkeys H.
    unfold update_bundled_data.build_index in H.
    destruct (update_bundled_data.index_collections urlopen fuel prefixes
                _ _ 0) as [r|] eqn:Hloop; [| done].
    cbn [mbind option_bind] in H.
    destruct r as [[conn' total']| e]; [| done].
    injection H as <- <-.
    apply bundled_index_collections_indexed in Hloop; [| done].
    destruct (indexed_paired _ _ _ _ _ _ Hloop (NoDup_sorted_keys _ Hkeys)
                [] paired_no_rows) as (ps & Hp & Hnodup & _ & -> & _).
    simpl. assert (Hagree := paired_rows_agree _ _ Hp Hnodup).
    split; [done |]. unfold update_bundled_data.count_mismatch.
    destruct Hagree as [-> _]. by rewrite Nat.eqb_refl.
Qed.

End RowCountTheorem.

Section RowCountExamples.

Import Py.

Lemma all_reachable_wf : wf_net all_reachable.
Proof.
  intros url d. unfold all_reachable.
  destruct (String.eqb url iconify_cli.COLLECTIONS_URL); intros [= <-];
    compute_done.
Qed.

Lemma three_collections_nodup : NoDup (keys three_collections).
Proof. compute_done. Qed.

Lemma wf_cache_empty : wf_cache ∅.
Proof. intros k d. by rewrite lookup_empty. Qed.

Lemma build_index_tables_paired_witness :
  match build_index_py.build_index (fun url => url) all_reachable 8
          fresh_world None true with
  | Some rep =>
      exists t,
        cache_index (build_index_py.world_after rep) = Some t
        /\ rows_agree t (build_index_py.total_icons rep)
  | None => False
  end
  /\ match update_bundled_data.build_index all_reachable 8 None
             three_collections None with
     | Some (Ok total, t) => rows_agree t total
     | _ => False
     end.
Proof.
  destruct (build_index_tables_paired (fun url => url) all_reachable
              all_reachable_wf) as [Hpy Hbundled].
  split.
  - destruct (build_index_py.build_index (fun url => url) all_reachable 8
                fresh_world None true) as [rep|] eqn:E.
    + apply (Hpy 8%nat fresh_world None true rep);
        [apply wf_cache_empty | by right | exact E |].
      clear -E. vm_compute in E. by injection E as <-.
    + vm_compute in E. discriminate.
  - destruct (update_bundled_data.build_index all_reachable 8 None
                three_collections None) as [[[total | e] t]|] eqn:E.
    + apply (Hbundled 8%nat None three_collections None total t); [| exact E].
      apply three_collections_nodup.
    + vm_compute in E. discriminate.
    + vm_compute in E. discriminate.
Defined.

End RowCountExamples.

(** ** Fetcher: what a fetch leaves in the cache *)

Section FetcherCache.

Import Py iconify_cli.

Variable md5_hexdigest : string -> string.

Lemma fetch_network_cases (urlopen : string -> response)
  (cache : gmap string file) (url : string) :
  (exists d,
     urlopen url = Body d
     /\ fetch_network md5_hexdigest urlopen cache url
        = (Ok d, <[cache_key md5_hexdigest url := Valid d]> cache))
  \/ (exists r,
        fetch_network md5_hexdigest urlopen cache url = (r, cache)
        /\ forall d, r = Ok d ->
             cache !! cache_key md5_hexdigest url = Some (Valid d)).
Proof.
  unfold fetch_network. destruct (urlopen url) as [data | e].
  - left. by exists data.
  - right. destruct (caught e [URLError; HTTPError; JSONDecodeError]).
    + destruct (cache !! cache_key md5_hexdigest url) as [f|] eqn:Hc.
      * exists (json_load f). split; [done |].
        destruct f as [d0 | |]; cbn [json_load]; intros d [=]. by subst.
      * by exists (Raise RuntimeError).
    + by exists (Raise e).
Qed.

Lemma http_get_cases (urlopen : string -> response)
  (cache : gmap string file) (url : string) :
  (exists d,
     cache !! cache_key md5_hexdigest url = Some (Valid d)
     /\ http_get md5_hexdigest urlopen cache url = (Ok d, cache))
  \/ ((forall d, cache !! cache_key md5_hexdigest url <> Some (Valid d))
      /\ http_get md5_hexdigest urlopen cache url
         = fetch_network md5_hexdigest urlopen cache url).
Proof.
  unfold http_get.
  destruct (cache !! cache_key md5_hexdigest url) as [[d0 | |]|].
  - left. by exists d0.
  - by right.
  - by right.
  - by right.
Qed.

(** X1. A document that [http_get] returns is in the cache afterwards,
    under the key of its URL, and a second fetch of the same URL returns
    the same document and leaves the cache as it is, whatever the network
    does then. *)
Theorem http_get_result_is_cached (urlopen urlopen' : string -> response)
  (cache cache' : gmap string file) (url : string) (d : document) :
  http_get md5_hexdigest urlopen cache url = (Ok d, cache') ->
  cache' !! cache_key md5_hexdigest url = Some (Valid d)
  /\ http_get md5_hexdigest urlopen' cache' url = (Ok d, cache').
Proof.
  intros H.
  assert (Hc : cache' !! cache_key md5_hexdigest url = Some (Valid d)).
  { destruct (http_get_cases urlopen cache url)
      as [(d0 & Hd0 & Hget) | [Hno Hget]]; rewrite Hget in H.
    - by injection H as <- <-.
    - destruct (fetch_network_cases urlopen cache url)
        as [(d0 & _ & Hf) | (r & Hf & Hr)]; rewrite Hf in H.
      + injection H as <- <-. by rewrite lookup_insert_eq.
      + injection H as -> <-. by destruct (Hno d); apply Hr. }
  split; [done |].
  destruct (http_get_cases urlopen' cache' url)
    as [(d0 & Hd0 & Hget) | [Hno Hget]]; [| by destruct (Hno d)].
  rewrite Hget. rewrite Hc in Hd0. by injection Hd0 as <-.
Qed.

(** X2. [http_get] touches at most the cache entry of the URL it
    fetches: every other entry is as before, a fetch that raises leaves
    the whole cache unchanged, and no entry is ever removed. *)
Theorem http_get_frame (urlopen : string -> response)
  (cache cache' : gmap string file) (url : string) (r : res document) :
  http_get md5_hexdigest urlopen cache url = (r, cache') ->
  (forall k, k <> cache_key md5_hexdigest url -> cache' !! k = cache !! k)
  /\ (forall e, r = Raise e -> cache' = cache)
  /\ (forall k, is_Some (cache !! k) -> is_Some (cache' !! k)).
Proof.
  intros H.
  assert (Hcases : cache' = cache
                   \/ exists d,
                        r = Ok d
                        /\ cache'
                           = <[cache_key md5_hexdigest url := Valid d]> cache).
  { destruct (http_get_cases urlopen cache url)
      as [(d0 & Hd0 & Hget) | [Hno Hget]]; rewrite Hget in H.
    - left. by injection H as <- <-.
    - destruct (fetch_network_cases urlopen cache url)
        as [(d0 & _ & Hf) | (r0 & Hf & Hr)]; rewrite Hf in H.
      + right. exists d0. by injection H as <- <-.
      + left. by injection H as <- <-. }
  destruct Hcases as [-> | (d & -> & ->)].
  - by repeat split.
  - split; [| split].
    + intros k Hk. by rewrite lookup_insert_ne.
    + done.
    + intros k Hk.
      destruct (decide (cache_key md5_hexdigest url = k)) as [<- | Hne].
      * rewrite lookup_insert_eq. by eexists.
      * by rewrite lookup_insert_ne.
Qed.

End FetcherCache.

Section FetcherCacheExamples.

Import Py iconify_cli.

Lemma http_get_result_is_cached_witness :
  let cache' :=
    <[cache_key (fun url => url) some_url := Valid (Catalog three_collections)]>
      (∅ : gmap string file) in
  http_get (fun url => url) (fun _ => Fails URLError) cache' some_url
  = (Ok (Catalog three_collections), cache').
Proof.
  intros cache'.
  apply (http_get_result_is_cached (fun url => url) all_reachable
           (fun _ => Fails URLError) ∅ cache' some_url
           (Catalog three_collections)).
  reflexivity.
Defined.

Lemma http_get_frame_witness :
  (<[cache_key (fun url => url) some_url := Valid (Catalog three_collections)]>
     (∅ : gmap string file)) !! "other.json"
  = (∅ : gmap string file) !! "other.json".
Proof.
  apply (http_get_frame (fun url => url) all_reachable ∅ _ some_url
           (Ok (Catalog three_collections))); [reflexivity | discriminate].
Defined.

End FetcherCacheExamples.

(** ** Alias resolver: what a resolution returns *)

Section ResolverResults.

Import Py iconify_cli.

Lemma resolve_loop_result (icons : icon_table) (fuel : nat) :
  forall current r,
    resolve_loop fuel icons current = Some r ->
    get_parent r = None
    /\ (r = current \/ r = empty_icon \/ exists k, dict_get icons k = Some r)
    /\ forall fuel', (fuel <= fuel')%nat ->
         resolve_loop fuel' icons current = Some r.
Proof.
  induction fuel as [|fuel IH]; intros current r; rewrite resolve_loop_eq;
    destruct (get_parent current) as [p|] eqn:Hp; try done.
  - intros [= <-]. split; [done |]. split; [by left |].
    intros fuel' _. by rewrite resolve_loop_eq, Hp.
  - intros H. apply IH in H as (Hnone & Hwhere & Hmore).
    split; [done |]. split.
    + right. destruct Hwhere as [-> | [-> | [k Hk]]];
        [| by left | by right; exists k].
      unfold entry. destruct (dict_get icons p) as [ic|] eqn:Hic;
        [right; by exists p | by left].
    + intros [|fuel'] Hle; [lia |]. rewrite resolve_loop_eq, Hp.
      apply Hmore. lia.
  - intros [= <-]. split; [done |]. split; [by left |].
    intros fuel' _. by rewrite resolve_loop_eq, Hp.
Qed.

(** X3. When [resolve_aliases] returns, the icon it returns has no
    [parent] key, it is the empty dict or an entry of the icon table, and
    a longer run returns the same icon. *)
Theorem resolve_aliases_result (fuel : nat) (data : icon_set) (name : string)
  (r : icon) :
  resolve_aliases fuel data name = Some r ->
  get_parent r = None
  /\ (r = empty_icon
      \/ exists k, dict_get (default [] (get_icons data)) k = Some r)
  /\ forall fuel', (fuel <= fuel')%nat ->
       resolve_aliases fuel' data name = Some r.
Proof.
  unfold resolve_aliases. intros H.
  apply resolve_loop_result in H as (Hnone & Hwhere & Hmore).
  split; [done |]. split; [| done].
  destruct Hwhere as [-> | [-> | [k Hk]]]; [| by left | by right; exists k].
  destruct (dict_get (default [] (get_icons data)) name) as [ic|] eqn:Hic;
    [right; by exists name | by left].
Qed.


(** X5. When the parent chain of [name] reaches a name that is not in
    the icon table, [get_svg] prints its not-found message and no
    markup. *)
Theorem get_svg_missing_entry (data : icon_set) (name last : string)
  (k fuel : nat) (size : Z) (color : option string) :
  let icons := default [] (get_icons data) in
  ancestor (parent_name icons) k name = Some last ->
  dict_get icons last = None ->
  (k <= fuel)%nat ->
  get_svg fuel data name size color = Some IconNotFound.
Proof.
  intros icons Hk Hlast Hfuel.
  assert (Hentry : entry icons last = empty_icon).
  { unfold entry. by rewrite Hlast. }
  assert (Hnone : parent_name icons last = None).
  { unfold parent_name. by rewrite Hentry. }
  unfold get_svg, resolve_aliases. fold icons. fold (entry icons name).
  rewrite (resolve_loop_ends icons k name last) by done.
  by rewrite Hentry.
Qed.

End ResolverResults.

Section ResolverResultExamples.

Import Py iconify_cli.

Lemma resolve_aliases_result_witness :
  get_parent parent_p = None
  /\ resolve_aliases 5 (IconSetDoc (Some child_bare) None None) "c"
     = Some parent_p.
Proof.
  destruct (resolve_aliases_result 1 (IconSetDoc (Some child_bare) None None)
              "c" parent_p eq_refl) as (H1 & _ & H3).
  split; [exact H1 | apply H3; lia].
Defined.


(** The two outputs of that example differ in the attribution comment. *)
Lemma get_svg_output_example :
  get_svg_output 3 "mdi" aliased "house" 24 None
  = (fun lines =>
       <[1%nat := newline +:+ "<!-- Icon: mdi:house -->"]> lines)
      <$> get_svg_output 0 "mdi" aliased "home" 24 None
  /\ (fun lines => lines !! 1%nat)
       <$> get_svg_output 0 "mdi" aliased "home" 24 None
     = Some (Some (newline +:+ "<!-- Icon: mdi:home -->")).
Proof. split; vm_compute; reflexivity. Qed.

Lemma get_svg_missing_entry_witness :
  get_svg 2 orphan "c" 24 None = Some IconNotFound.
Proof.
  apply (get_svg_missing_entry orphan "c" "q" 1 2 24 None);
    [reflexivity | reflexivity | lia].
Defined.

End ResolverResultExamples.

(** ** SVG assembler: the gate and the identifier *)

Section GateAndIdentifier.

Import Py iconify_cli.

Lemma occurs_ci_extend (pat pre body post : string) :
  occurs_ci pat body -> occurs_ci pat (pre +:+ body +:+ post).
Proof.
  intros (a & mid & b & -> & Hmid).
  exists (pre +:+ a), mid, (b +:+ post). split; [| done].
  by rewrite !append_assoc.
Qed.

(** X6. The safety gate is closed under context: a body that contains
    a refused fragment is refused. *)
Theorem sanitize_svg_fragment (pre body post : string) :
  sanitize_svg body = false -> sanitize_svg (pre +:+ body +:+ post) = false.
Proof.
  rewrite !sanitize_svg_false. unfold unsafe_body.
  intros [H | [H | [H | H]]]; eauto 6 using occurs_ci_extend.
Qed.

Lemma contains_colon (s : string) :
  contains ":" s = true <-> exists a b, s = a +:+ String ":" b.
Proof.
  rewrite contains_spec. split; intros (a & b & ->); by exists a, b.
Qed.

Lemma split_once_found (sep : ascii) (s a b : string) :
  split_once sep s = (a, Some b)
  <-> s = a +:+ String sep b /\ forall x y, a <> x +:+ String sep y.
Proof.
  revert a. induction s as [|c s IH]; intros a; simpl.
  - split; [done |]. intros [H _]. by destruct a.
  - destruct (Ascii.eqb_spec c sep) as [-> | Hne].
    + split.
      * intros [= <- <-]. split; [done |]. intros x y H. by destruct x.
      * intros [H Hfree]. destruct a as [|c' a].
        -- rewrite append_nil_l in H. by injection H as ->.
        -- rewrite append_cons in H. injection H as <- _.
           by destruct (Hfree "" a).
    + split.
      * intros [= <- Hb].
        destruct (proj1 (IH (split_once sep s).1)) as [Hs Hfree].
        { rewrite <- Hb. by destruct (split_once sep s). }
        split.
        -- rewrite append_cons. f_equal. exact Hs.
        -- intros [|x0 x] y H.
           ++ rewrite append_nil_l in H. by injection H.
           ++ rewrite append_cons in H. injection H as _ H. by eapply Hfree.
      * intros [H Hfree]. destruct a as [|c' a].
        { rewrite append_nil_l in H. by injection H. }
        rewrite append_cons in H. injection H as <- ->.
        assert (E : split_once sep (a +:+ String sep b) = (a, Some b)).
        { apply IH. split; [done |]. intros x y ->.
          by eapply (Hfree (String c x) y). }
        by rewrite E.
Qed.

End GateAndIdentifier.

Section IdentifierRoundTrip.

Import Py iconify_cli.

Lemma colon_free (a : string) :
  contains ":" a = false <-> forall x y, a <> x +:+ String ":" y.
Proof.
  split.
  - intros Hc x y ->.
    assert (contains ":" (x +:+ String ":" y) = true) as Ht
      by (apply contains_colon; by exists x, y).
    congruence.
  - intros Hfree. destruct (contains ":" a) eqn:Hc; [| done].
    apply contains_colon in Hc as (x & y & ->). by destruct (Hfree x y).
Qed.

(** X7. An identifier is split at its first colon: [split_icon_id]
    answers [(prefix, name)] exactly for the argument [prefix:name] with a
    prefix without colon, so that a name may contain colons; it leaves the
    argument to the lookup in the index exactly when it has no colon. *)
Theorem split_icon_id_spec (arg prefix name : string) :
  (split_icon_id arg = Some (prefix, name)
   <-> arg = full_id_of prefix name /\ contains ":" prefix = false)
  /\ (split_icon_id arg = None <-> contains ":" arg = false).
Proof.
  split.
  - split.
    + unfold split_icon_id. destruct (contains ":" arg); [| done].
      destruct (split_once ":" arg) as [a [b|]] eqn:E; [| done].
      intros [= <- <-]. apply split_once_found in E as [-> Hfree].
      split; [done |]. by apply colon_free.
    + intros [-> Hfree]. unfold split_icon_id.
      replace (contains ":" (full_id_of prefix name)) with true.
      2:{ symmetry. apply contains_colon. by exists prefix, name. }
      replace (split_once ":" (full_id_of prefix name))
        with (prefix, Some name); [done |].
      symmetry. apply split_once_found. split; [done |]. by apply colon_free.
  - unfold split_icon_id. destruct (contains ":" arg) eqn:Hc; [| done].
    split; [| done].
    apply contains_colon in Hc as (a & b & ->).
    destruct (split_once ":" (a +:+ String ":" b)) as [a' [b'|]] eqn:E;
      [done |].
    exfalso. clear -E. revert a' E.
    induction a as [|c a IH]; intros a'.
    + rewrite append_nil_l. done.
    + rewrite append_cons. simpl. destruct (Ascii.eqb c ":"); [done |].
      intros [= _ H]. destruct (split_once ":" (a +:+ String ":" b)) as [x y].
      simpl in H. subst y. by eapply IH.
Qed.

End IdentifierRoundTrip.

Section IdentifierExamples.

Import Py iconify_cli.

Lemma sanitize_svg_fragment_witness :
  sanitize_svg ("<g>" +:+ "<script>" +:+ "</g>") = false.
Proof. apply sanitize_svg_fragment. reflexivity. Defined.

Lemma split_icon_id_spec_witness :
  split_icon_id "mdi:home" = Some ("mdi", "home").
Proof.
  apply (split_icon_id_spec "mdi:home" "mdi" "home"). split; reflexivity.
Defined.

End IdentifierExamples.

(** ** Query engine: the linear scan and the ranked statement *)

Section LinearScan.

Import Py iconify_cli.

Variable md5_hexdigest : string -> string.
Variable urlopen : string -> response.

Lemma take_app_congr {A} (n : nat) (a b c : list A) :
  take n a = take n b -> take n (a ++ c) = take n (b ++ c).
Proof.
  intros H. destruct (decide (n <= length a)%nat) as [Hle | Hgt].
  - assert (n <= length b)%nat.
    { apply (f_equal length) in H. rewrite !length_take in H. lia. }
    by rewrite !take_app_le.
  - rewrite (take_ge a) in H by lia.
    assert (length b = length a).
    { apply (f_equal length) in H. rewrite length_take in H. lia. }
    rewrite (take_ge b) in H by lia. by subst.
Qed.

Lemma scan_icons_take (query_lower : string) (limit : Z) (prefix : string)
  (icons : icon_table) :
  forall results,
    take (Z.to_nat limit) (scan_icons query_lower limit prefix icons results)
    = take (Z.to_nat limit) (results ++ matching query_lower prefix icons).
Proof.
  unfold matching.
  induction icons as [|[name icon] icons IH]; intros results;
    cbn [scan_icons].
  - by rewrite app_nil_r.
  - rewrite filter_cons.
    destruct (icon_matches query_lower name icon) eqn:Hm.
    + rewrite decide_True by done. rewrite fmap_cons. cbn [fst].
      assert (E : forall hits : list (string * string),
                results ++ (prefix, name) :: hits
                = (results ++ [(prefix, name)]) ++ hits)
        by (intros hits; by rewrite <- app_assoc).
      set (acc := results ++ [(prefix, name)]) in *.
      rewrite E.
      destruct (Z.leb_spec limit (Z.of_nat (length acc))).
      * symmetry. apply take_app_le. lia.
      * apply IH.
    + rewrite decide_False by (simpl; congruence). apply IH.
Qed.

Lemma scan_collections_take (query_lower : string) (limit : Z)
  (prefixes : option (list string)) (collections : list string) :
  forall cache results,
    (scan_collections md5_hexdigest urlopen query_lower limit prefixes cache
       collections results).2
    = (scan_all md5_hexdigest urlopen query_lower prefixes cache collections).2
    /\ exists hits,
         (scan_collections md5_hexdigest urlopen query_lower limit prefixes
            cache collections results).1 = Ok hits
         /\ take (Z.to_nat limit) hits
            = take (Z.to_nat limit)
                (results ++ (scan_all md5_hexdigest urlopen query_lower prefixes cache collections).1).
Proof.
  induction collections as [|prefix rest IH]; intros cache results;
    cbn [scan_collections scan_all].
  - split; [done |]. exists results. by rewrite app_nil_r.
  - destruct (negb (in_prefixes prefixes prefix)); [apply IH |].
    destruct (get_prefix_json md5_hexdigest urlopen cache prefix)
      as [[data | e] cache1].
    + destruct (IH cache1
                  (scan_icons query_lower limit prefix
                     (default [] (get_icons (as_icon_set data))) results))
        as (Hc & hits & Hhits & Htake).
      split; [done |]. exists hits. split; [done |].
      rewrite Htake. cbn [fst]. rewrite app_assoc.
      apply take_app_congr, scan_icons_take.
    + rewrite caught_Exception. apply IH.
Qed.

(** X8. Without an index file and with a limit that is not negative,
    the linear scan prints the first [limit] hits, in catalog and document
    order, of the collections that pass the prefix filter and can be
    fetched; every such collection is fetched, also after the limit is
    reached, as the cache it leaves shows. *)
Theorem linear_scan_first_hits (Score : Type)
  (sqlite_execute :
     tables -> string -> string * Z -> res (list (string * string * Score)))
  (w : world) (query : string) (limit : Z) (prefixes : option (list string))
  (collections : document) (cache1 : gmap string file) :
  0 <= limit ->
  (if has_bundled_index w then bundle_index w else cache_index w) = None ->
  load_collections md5_hexdigest urlopen (bundle_metadata w) (cache w)
  = (Ok collections, cache1) ->
  let all :=
    scan_all md5_hexdigest urlopen (lower query) prefixes cache1 (keys (as_catalog collections)) in
  search_icons md5_hexdigest urlopen Score sqlite_execute w query limit
    prefixes
  = (Ok (LinearScan (take (Z.to_nat limit) all.1)), all.2).
Proof.
  intros Hlimit Hidx Hload all. unfold search_icons. rewrite Hidx, Hload.
  destruct (scan_collections_take (lower query) limit prefixes
              (keys (as_catalog collections)) cache1 [])
    as (Hc & hits & Hhits & Htake).
  destruct (scan_collections md5_hexdigest urlopen (lower query) limit
              prefixes cache1 (keys (as_catalog collections)) [])
    as [r cache2].
  simpl in Hc, Hhits. subst r cache2. unfold slice_to.
  destruct (Z.ltb_spec limit 0); [lia |]. by rewrite Htake.
Qed.

End LinearScan.

Section RankedStatement.

Import Py iconify_cli.

Variable Score : Type.
Variable fts5_match : string -> list fts_row -> res (list (fts_row * Score)).
Variable sqlite_execute :
  tables -> string -> string * Z -> res (list (string * string * Score)).
Hypothesis Hsqlite : runs_select Score fts5_match sqlite_execute.

(** X9. When no prefix of the filter has a single quote or a NUL
    character and the limit fits 64 bits, so that SQLite runs the
    statement as the SELECT it is meant to be, the ranked search returns at most [limit] rows when the limit
    is not negative, only rows whose prefix passes the filter, and, for a
    limit other than 0, rows in the order of the engine: a sublist of its
    answer. *)
Theorem search_index_rows (query : string) (limit : Z)
  (prefixes : option (list string)) (index : tables)
  (rows : list (string * string * Score)) :
  statement_safe prefixes ->
  sqlite_integer limit ->
  search_index Score sqlite_execute query limit prefixes index = Ok rows ->
  (0 <= limit -> (length rows <= Z.to_nat limit)%nat)
  /\ (forall row, row ∈ rows -> in_prefixes prefixes row.1.1 = true)
  /\ (limit <> 0 ->
      exists ranked,
        fts5_match (search_query query) (icons_fts index) = Ok ranked
        /\ rows `sublist_of`
             ((fun rs : fts_row * Score => (f_prefix rs.1, f_name rs.1, rs.2))
                <$> ranked)).
Proof.
  intros Hsafe Hint. unfold search_index.
  rewrite (Hsqlite prefixes Hsafe) by done.
  unfold select_rows. destruct (Z.eqb_spec limit 0) as [-> | Hne].
  - intros [= <-]. split; [simpl; lia |]. split; [| done].
    by intros row ?%elem_of_nil.
  - destruct (fts5_match (search_query query) (icons_fts index))
      as [ranked | e]; [| done].
    cbn [mbind res_bind]. intros [= <-].
    set (kept := filter _ ranked).
    assert (Hsub : sql_limit limit
                     ((fun rs : fts_row * Score =>
                         (f_prefix rs.1, f_name rs.1, rs.2)) <$> kept)
                   `sublist_of`
                   ((fun rs : fts_row * Score =>
                       (f_prefix rs.1, f_name rs.1, rs.2)) <$> kept)).
    { unfold sql_limit. destruct (limit <? 0); [done | apply sublist_take]. }
    split; [| split].
    + intros Hpos. unfold sql_limit.
      destruct (Z.ltb_spec limit 0); [lia |]. rewrite length_take. lia.
    + intros row Hrow. eapply elem_of_sublist in Hrow; [| exact Hsub].
      apply list_elem_of_fmap in Hrow as (rs & -> & Hrs).
      by apply list_elem_of_filter in Hrs as [Hin _].
    + intros _. exists ranked. split; [done |].
      etrans; [exact Hsub |]. apply fmap_sublist, sublist_filter.
Qed.

End RankedStatement.

Section SearchResultExamples.

Import Py iconify_cli.

Lemma linear_scan_first_hits_witness :
  (search_icons (fun url => url) all_reachable Z
     (reference_execute Z all_rows) scan_world "ho" 3 None).1
  = Ok (LinearScan [("mdi", "home"); ("mdi", "house"); ("bi", "home")]).
Proof.
  rewrite (linear_scan_first_hits (fun url => url) all_reachable Z
             (reference_execute Z all_rows) scan_world "ho" 3 None
             (Catalog [("mdi", CollectionInfo None None);
                       ("bi", CollectionInfo None None)]) ∅);
    [reflexivity | lia | reflexivity | reflexivity].
Defined.

Lemma search_index_rows_witness :
  match search_index Z (reference_execute Z all_rows) "home" 1
          (Some ["old"; "mdi"]) stale_index with
  | Ok rows => (length rows <= 1)%nat
  | Raise _ => False
  end.
Proof.
  destruct (search_index Z (reference_execute Z all_rows) "home" 1
              (Some ["old"; "mdi"]) stale_index) as [rows | e] eqn:E.
  - apply (search_index_rows Z all_rows (reference_execute Z all_rows)
             (reference_runs_select Z all_rows) "home" 1
             (Some ["old"; "mdi"]) stale_index rows);
      [by repeat constructor | unfold sqlite_integer; lia | exact E | lia].
  - vm_compute in E. discriminate.
Defined.

End SearchResultExamples.

(** ** The health check of the command line *)

Section DoctorFacts.

Import Py iconify_cli.

Variable md5_hexdigest : string -> string.

(** X10. [doctor] returns 0 exactly when the bundled index has rows and
    the index file of the cache directory exists, and 1 otherwise; with a
    bundled index it leaves the cache as it is. *)
Theorem doctor_exit_status (urlopen : string -> response) (w : world) :
  ((doctor md5_hexdigest urlopen w).1 = 0
   <-> has_bundled_index w = true /\ is_Some (cache_index w))
  /\ ((doctor md5_hexdigest urlopen w).1 = 0
      \/ (doctor md5_hexdigest urlopen w).1 = 1)
  /\ (has_bundled_index w = true ->
      (doctor md5_hexdigest urlopen w).2 = cache w).
Proof.
  unfold doctor. destruct (has_bundled_index w); cbn [negb].
  - cbn [forallb fst snd andb].
    destruct (cache_index w) as [t|].
    + rewrite bool_decide_eq_true_2 by (by eexists). simpl.
      repeat split; auto.
    + rewrite bool_decide_eq_false_2 by (by intros [? ?]). simpl.
      repeat split; auto; try done. by intros [_ [? ?]].
  - destruct (load_collections md5_hexdigest urlopen (bundle_metadata w)
                (cache w)) as [[collections | e] cache1];
      cbn [forallb fst snd andb];
      (split; [split; [done | by intros [? _]] | split; [by right | done]]).
Qed.

End DoctorFacts.

Section DoctorExamples.

Import Py iconify_cli.

Lemma doctor_exit_status_witness :
  (doctor (fun url => url) all_reachable bundled_world).1 = 0.
Proof.
  apply (doctor_exit_status (fun url => url) all_reachable bundled_world).
  split; [reflexivity | by eexists].
Defined.

End DoctorExamples.

(** ** Index builders: what a build leaves *)

Section SweptFacts.

Import Py build_index_py.

Lemma index_icons_columns (fuel : nat) (prefix license_title : string) :
  forall names icons conn count icons' conn' count',
    index_icons fuel prefix license_title names icons conn count
    = Some (icons', conn', count') ->
    prefix_column (pending conn')
    = prefix_column (pending conn) ++ replicate (length names) prefix
    /\ fts_prefix_column (pending conn')
       = fts_prefix_column (pending conn) ++ replicate (length names) prefix
    /\ count' = (count + length names)%nat
    /\ on_disk conn' = on_disk conn.
Proof.
  induction names as [|name rest IH];
    intros icons conn count icons' conn' count' H.
  - injection H as <- <- <-. simpl. rewrite !app_nil_r.
    repeat split; lia.
  - cbn [index_icons] in H.
    destruct (flatten_aliases fuel icons name) as [[icons1 acc]|]; [| done].
    cbn [mbind option_bind] in H.
    apply IH in H as (H1 & H2 & H3 & H4).
    unfold prefix_column, fts_prefix_column in *. simpl in *.
    split; [by rewrite H1, fmap_app, <- app_assoc |].
    split; [by rewrite H2, fmap_app, <- app_assoc |].
    split; [lia | done].
Qed.

Lemma index_document_columns (fuel : nat) (prefix : string) (data : icon_set)
  (conn conn' : connection) (count : nat) :
  index_document fuel prefix data conn = Some (conn', count) ->
  prefix_column (pending conn')
  = prefix_column (pending conn) ++ replicate count prefix
  /\ fts_prefix_column (pending conn')
     = fts_prefix_column (pending conn) ++ replicate count prefix
  /\ on_disk conn' = on_disk conn.
Proof.
  unfold index_document. intros H.
  destruct (index_icons fuel prefix (default "Unknown" (get_license_title data))
              (keys (default [] (get_icons data)))
              (default [] (get_icons data)) conn 0)
    as [[[icons' conn1] count1]|] eqn:E; [| done].
  injection H as <- <-.
  apply index_icons_columns in E as (H1 & H2 & -> & H4). by rewrite Nat.add_0_l.
Qed.

Lemma swept_columns (fuel : nat) (prefixes : list string)
  (conn : connection) (n : nat) (conn' : connection) (n' : nat) :
  swept fuel prefixes conn n conn' n' ->
  exists added : list string,
    prefix_column (pending conn') = prefix_column (pending conn) ++ added
    /\ fts_prefix_column (pending conn')
       = fts_prefix_column (pending conn) ++ added
    /\ Forall (fun p => p ∈ prefixes) added
    /\ (StronglySorted String.le prefixes -> StronglySorted String.le added)
    /\ n' = (n + length added)%nat
    /\ on_disk conn' = on_disk conn.
Proof.
  induction 1 as [conn n
                 | prefix rest conn n conn' n' _ IH
                 | prefix rest data conn n conn1 count conn' n' Hdoc _ IH].
  - exists []. rewrite !app_nil_r.
    repeat split; try done; try constructor; simpl; lia.
  - destruct IH as (added & H1 & H2 & H3 & H4 & H5 & H6).
    exists added. repeat split; try done.
    + eapply Forall_impl; [done |]. intros p Hin. by apply elem_of_cons; right.
    + intros Hs. apply H4. by apply StronglySorted_inv in Hs as [? _].
  - destruct IH as (added & H1 & H2 & H3 & H4 & H5 & H6).
    apply index_document_columns in Hdoc as (Hd1 & Hd2 & Hd3).
    exists (replicate count prefix ++ added).
    rewrite H1, H2, Hd1, Hd2, <- !app_assoc.
    split; [done |]. split; [done |]. split; [| split; [| split]].
    + apply Forall_app. split.
      * apply Forall_replicate. by apply elem_of_cons; left.
      * eapply Forall_impl; [done |]. intros p Hin. by apply elem_of_cons; right.
    + intros Hs. apply StronglySorted_inv in Hs as [Hrest Hall].
      apply StronglySorted_app_2; [| | by apply H4].
      * intros x y ->%elem_of_replicate_inv Hy.
        rewrite Forall_forall in H3, Hall. by apply Hall, H3.
      * clear. induction count as [|c IHc]; simpl; constructor; [done |].
        by apply Forall_replicate.
    + rewrite H5, length_app, length_replicate. lia.
    + by rewrite H6.
Qed.

Lemma StronglySorted_sorted_keys {V} (d : list (string * V)) :
  StronglySorted String.le (sorted_keys d).
Proof. apply StronglySorted_merge_sort; apply _. Qed.

Lemma elem_of_sorted_keys {V} (d : list (string * V)) (p : string) :
  p ∈ sorted_keys d <-> p ∈ keys d.
Proof. unfold sorted_keys. by rewrite merge_sort_Permutation. Qed.

Lemma elem_of_keys_restrict {V} (prefixes : option (list string))
  (d : list (string * V)) (p : string) :
  p ∈ keys (iconify_cli.restrict prefixes d)
  <-> p ∈ keys d /\ p ∈ default [] prefixes.
Proof.
  unfold keys, iconify_cli.restrict. rewrite !list_elem_of_fmap. split.
  - intros ([k v] & -> & [Hin Hd]%list_elem_of_filter). split; [| done].
    by exists (k, v).
  - intros (([k v] & -> & Hd) & Hin). exists (k, v). split; [done |].
    by apply list_elem_of_filter.
Qed.

Lemma nonempty_in_prefixes (prefixes : option (list string)) (p : string) :
  iconify_cli.nonempty prefixes = true ->
  p ∈ default [] prefixes -> iconify_cli.in_prefixes prefixes p = true.
Proof.
  destruct prefixes as [[|q qs]|]; try done. intros _ Hin. simpl in *.
  by apply bool_decide_eq_true_2.
Qed.

Lemma in_prefixes_empty (prefixes : option (list string)) (p : string) :
  iconify_cli.nonempty prefixes = false ->
  iconify_cli.in_prefixes prefixes p = true.
Proof. by destruct prefixes as [[|q qs]|]. Qed.

End SweptFacts.

Section BuildersSweep.

Import Py.

Variable md5_hexdigest : string -> string.
Variable urlopen : string -> response.

Lemma py_index_collections_swept (fuel : nat) :
  forall prefixes cache conn total errs conn' total' errs' cache',
    build_index_py.index_collections md5_hexdigest urlopen fuel cache prefixes
      conn total errs
    = Some (Ok (conn', total', errs'), cache') ->
    swept fuel prefixes conn total conn' total'.
Proof.
  induction prefixes as [|prefix rest IH];
    intros cache conn total errs conn' total' errs' cache' H.
  - injection H as <- <- <- <-. constructor.
  - cbn [build_index_py.index_collections] in H.
    destruct (iconify_cli.http_get md5_hexdigest urlopen cache _)
      as [[data | e] cache1] eqn:Hget.
    + destruct (build_index_py.index_document fuel prefix (as_icon_set data)
                  conn) as [[conn1 count]|] eqn:Hdoc; [| done].
      cbn [mbind option_bind] in H.
      eapply swept_doc; [exact Hdoc | by eapply IH].
    + destruct (caught e _); [| done].
      apply swept_skip. by eapply IH.
Qed.

Lemma bundled_index_collections_swept (fuel : nat)
  (prefixes : option (list string)) :
  forall sorted conn total r,
    update_bundled_data.index_collections urlopen fuel prefixes sorted conn
      total
    = Some r ->
    exists conn' total',
      r = Ok (conn', total')
      /\ swept fuel
           (filter (fun p => iconify_cli.in_prefixes prefixes p = true) sorted)
           conn total conn' total'.
Proof.
  induction sorted as [|prefix rest IH]; intros conn total r H.
  - injection H as <-. eexists _, _. split; [done |]. constructor.
  - cbn [update_bundled_data.index_collections] in H. rewrite filter_cons.
    destruct (iconify_cli.in_prefixes prefixes prefix) eqn:Hin; cbn [negb] in H.
    2:{ rewrite decide_False by done. by apply IH. }
    rewrite decide_True by done.
    destruct (update_bundled_data.http_get urlopen _) as [data | e].
    + destruct (build_index_py.index_document fuel prefix (as_icon_set data)
                  conn) as [[conn1 count]|] eqn:Hdoc; [| done].
      cbn [mbind option_bind] in H.
      apply IH in H as (conn' & total' & -> & Hs).
      eexists _, _. split; [done |]. by eapply swept_doc.
    + rewrite caught_Exception in H.
      apply IH in H as (conn' & total' & -> & Hs).
      eexists _, _. split; [done |]. by apply swept_skip.
Qed.

End BuildersSweep.

Section BuilderColumns.

Import Py.

Variable md5_hexdigest : string -> string.
Variable urlopen : string -> response.

Lemma StronglySorted_filter {A} (R : relation A) (P : A -> Prop)
  `{forall x, Decision (P x)} (l : list A) :
  StronglySorted R l -> StronglySorted R (filter P l).
Proof.
  induction 1 as [|x l Hs IH Hall]; [constructor |].
  rewrite filter_cons. destruct (decide (P x)); [| exact IH].
  constructor; [exact IH |]. rewrite Forall_forall in Hall. apply Forall_forall.
  intros y [_ Hy]%list_elem_of_filter. by apply Hall.
Qed.

Lemma length_remove_dups {A} `{EqDecision A} (l : list A) :
  (length (remove_dups l) <= length l)%nat.
Proof.
  induction l as [|x l IH]; [done |]. simpl.
  destruct (decide_rel elem_of x l); simpl; lia.
Qed.

Lemma py_build_index_columns (fuel : nat) (w : world)
  (prefixes : option (list string)) (force : bool)
  (rep : build_index_py.report) :
  cache_index w = None \/ force = true ->
  build_index_py.build_index md5_hexdigest urlopen fuel w prefixes force
  = Some rep ->
  build_index_py.exit_code rep = 0 ->
  exists t,
    cache_index (build_index_py.world_after rep) = Some t
    /\ fts_prefix_column t = prefix_column t
    /\ Forall (fun p => iconify_cli.in_prefixes prefixes p = true)
         (prefix_column t)
    /\ StronglySorted String.le (prefix_column t)
    /\ build_index_py.total_icons rep = length (icons_tbl t).
Proof.
  intros Hrun H Hexit. unfold build_index_py.build_index in H.
  replace (bool_decide (is_Some (cache_index w)) && negb force)
    with false in H.
  2:{ destruct Hrun as [-> | ->]; [done | by rewrite andb_false_r]. }
  destruct (iconify_cli.http_get md5_hexdigest urlopen (cache w) _)
    as [[collections | e] cache1]; [| by injection H as <-].
  set (sorted := build_index_py.sorted_keys _) in H.
  assert (Hsorted : Forall (fun p => iconify_cli.in_prefixes prefixes p = true)
                      sorted).
  { apply Forall_forall. intros p Hp. apply elem_of_sorted_keys in Hp.
    destruct (iconify_cli.nonempty prefixes) eqn:Hne.
    - apply elem_of_keys_restrict in Hp as [_ Hp].
      by apply nonempty_in_prefixes.
    - by apply in_prefixes_empty. }
  destruct (build_index_py.index_collections md5_hexdigest urlopen fuel
              cache1 sorted _ 0 []) as [[r cache2]|] eqn:Hloop; [| done].
  cbn [mbind option_bind] in H.
  destruct r as [[[conn' total'] errs']| e]; [| by injection H as <-].
  injection H as <-. simpl.
  apply py_index_collections_swept, swept_columns in Hloop
    as (added & H1 & H2 & H3 & H4 & H5 & _).
  simpl in H1, H2, H5. eexists. split; [reflexivity |].
  rewrite H1, H2. split; [done |]. split; [| split].
  - apply Forall_forall. intros p Hp. rewrite Forall_forall in H3, Hsorted.
    by apply Hsorted, H3.
  - apply H4, StronglySorted_sorted_keys.
  - rewrite H5, <- H1. unfold prefix_column. by rewrite length_fmap.
Qed.

Lemma bundled_build_index_columns (fuel : nat) (index_db : option tables)
  (collections : catalog) (prefixes : option (list string))
  (r : res nat) (t : tables) :
  update_bundled_data.build_index urlopen fuel index_db collections prefixes
  = Some (r, t) ->
  r = Ok (length (icons_tbl t))
  /\ fts_prefix_column t = prefix_column t
  /\ Forall (fun p => iconify_cli.in_prefixes prefixes p = true
                      /\ p ∈ Py.keys collections) (prefix_column t)
  /\ StronglySorted String.le (prefix_column t).
Proof.
  unfold update_bundled_data.build_index. intros H.
  destruct (update_bundled_data.index_collections urlopen fuel prefixes
              _ _ 0) as [r0|] eqn:Hloop; [| done].
  cbn [mbind option_bind] in H.
  apply bundled_index_collections_swept in Hloop as (conn' & total' & -> & Hs).
  injection H as <- <-.
  apply swept_columns in Hs as (added & H1 & H2 & H3 & H4 & H5 & _).
  simpl in H1, H2, H5. simpl. rewrite H1, H2.
  split; [| split; [done |]; split].
  - f_equal. rewrite H5, <- H1. unfold prefix_column. by rewrite length_fmap.
  - apply Forall_forall. intros p Hp. rewrite Forall_forall in H3.
    apply H3, list_elem_of_filter in Hp as [Hin Hp].
    split; [done | by apply elem_of_sorted_keys in Hp].
  - apply H4, StronglySorted_filter, StronglySorted_sorted_keys.
Qed.

(** X11. [build_index] of build_index.py returns 0 or 1. When it returns
    1 the index file holds the rows it held before the call (a missing
    file has become one with empty tables) and no icon and no error is
    reported. When the index exists and [force] is not set, the files are
    left as they are. The bundled files are never touched. *)
Theorem build_index_all_or_nothing (fuel : nat) (w : world)
  (prefixes : option (list string)) (force : bool)
  (rep : build_index_py.report) :
  build_index_py.build_index md5_hexdigest urlopen fuel w prefixes force
  = Some rep ->
  (build_index_py.exit_code rep = 0 \/ build_index_py.exit_code rep = 1)
  /\ (build_index_py.exit_code rep = 1 ->
      cache_index (build_index_py.world_after rep)
      = Some (default no_rows (cache_index w))
      /\ build_index_py.total_icons rep = O
      /\ build_index_py.errors rep = [])
  /\ (is_Some (cache_index w) -> force = false ->
      build_index_py.world_after rep = w)
  /\ bundle_index (build_index_py.world_after rep) = bundle_index w
  /\ bundle_metadata (build_index_py.world_after rep) = bundle_metadata w.
Proof.
  unfold build_index_py.build_index. intros H.
  destruct (bool_decide (is_Some (cache_index w)) && negb force) eqn:Hearly.
  { injection H as <-. simpl. repeat split; auto; done. }
  assert (Hnot : is_Some (cache_index w) -> force = false -> False).
  { intros Hs ->. by rewrite bool_decide_eq_true_2 in Hearly. }
  destruct (iconify_cli.http_get md5_hexdigest urlopen (cache w) _)
    as [[collections | e] cache1].
  2:{ injection H as <-. simpl. repeat split; auto; try done.
      intros; exfalso; auto. }
  destruct (build_index_py.index_collections md5_hexdigest urlopen fuel
              cache1 _ _ 0 []) as [[r cache2]|] eqn:Hloop; [| done].
  cbn [mbind option_bind] in H.
  destruct r as [[[conn' total'] errs']| e]; injection H as <-; simpl;
    repeat split; auto; try done; intros; exfalso; auto.
Qed.

(** X12. Both builders honour the prefix filter: after a build, every
    row of either table has a prefix that passes the filter, and for
    update_bundled_data.py that prefix is one of the catalog. *)
Theorem builders_respect_prefix_filter :
  (forall fuel w prefixes force rep t p,
     cache_index w = None \/ force = true ->
     build_index_py.build_index md5_hexdigest urlopen fuel w prefixes force
     = Some rep ->
     build_index_py.exit_code rep = 0 ->
     cache_index (build_index_py.world_after rep) = Some t ->
     p ∈ prefix_column t \/ p ∈ fts_prefix_column t ->
     iconify_cli.in_prefixes prefixes p = true)
  /\ (forall fuel index_db collections prefixes r t p,
        update_bundled_data.build_index urlopen fuel index_db collections
          prefixes = Some (r, t) ->
        p ∈ prefix_column t \/ p ∈ fts_prefix_column t ->
        iconify_cli.in_prefixes prefixes p = true /\ p ∈ Py.keys collections).
Proof.
  split.
  - intros fuel w prefixes force rep t p Hrun H Hexit Ht Hp.
    destruct (py_build_index_columns _ _ _ _ _ Hrun H Hexit)
      as (t' & Ht' & Hfts & Hall & _).
    rewrite Ht in Ht'. injection Ht' as <-. rewrite Hfts in Hp.
    rewrite Forall_forall in Hall. apply Hall. by destruct Hp.
  - intros fuel index_db collections prefixes r t p H Hp.
    apply bundled_build_index_columns in H as (_ & Hfts & Hall & _).
    rewrite Hfts in Hp. rewrite Forall_forall in Hall. apply Hall.
    by destruct Hp.
Qed.

(** X13. The index that update_bundled_data.py builds depends on the
    catalog only through its set of prefixes: two catalogs with the same
    prefixes, in any order and with any metadata, give the same result. *)
Theorem bundled_build_index_catalog_order (fuel : nat)
  (index_db : option tables) (collections collections' : catalog)
  (prefixes : option (list string)) :
  Py.keys collections ≡ₚ Py.keys collections' ->
  update_bundled_data.build_index urlopen fuel index_db collections prefixes
  = update_bundled_data.build_index urlopen fuel index_db collections'
      prefixes.
Proof.
  intros Hperm. unfold update_bundled_data.build_index.
  replace (build_index_py.sorted_keys collections')
    with (build_index_py.sorted_keys collections); [done |].
  unfold build_index_py.sorted_keys.
  apply (Sorted_unique String.le); try apply Sorted_merge_sort; try apply _.
  by rewrite !merge_sort_Permutation.
Qed.

(** X14. Both builders insert the collections in the sorted order of
    their prefixes: the prefix column of [icons] is sorted, and the prefix
    column of [icons_fts] is the same list. *)
Theorem built_rows_sorted_by_prefix :
  (forall fuel w prefixes force rep t,
     cache_index w = None \/ force = true ->
     build_index_py.build_index md5_hexdigest urlopen fuel w prefixes force
     = Some rep ->
     build_index_py.exit_code rep = 0 ->
     cache_index (build_index_py.world_after rep) = Some t ->
     StronglySorted String.le (prefix_column t)
     /\ fts_prefix_column t = prefix_column t)
  /\ (forall fuel index_db collections prefixes r t,
        update_bundled_data.build_index urlopen fuel index_db collections
          prefixes = Some (r, t) ->
        StronglySorted String.le (prefix_column t)
        /\ fts_prefix_column t = prefix_column t).
Proof.
  split.
  - intros fuel w prefixes force rep t Hrun H Hexit Ht.
    destruct (py_build_index_columns _ _ _ _ _ Hrun H Hexit)
      as (t' & Ht' & Hfts & _ & Hsorted & _).
    rewrite Ht in Ht'. by injection Ht' as <-.
  - intros fuel index_db collections prefixes r t H.
    by apply bundled_build_index_columns in H as (_ & Hfts & _ & Hsorted).
Qed.

(** X15. After a build that returns 0, [show_stats] reports as total the
    number of icons the build reported, and a number of collections that
    is at most that total and is zero only if the total is. *)
Theorem show_stats_after_build (fuel : nat) (w : world)
  (prefixes : option (list string)) (force : bool)
  (rep : build_index_py.report) :
  cache_index w = None \/ force = true ->
  build_index_py.build_index md5_hexdigest urlopen fuel w prefixes force
  = Some rep ->
  build_index_py.exit_code rep = 0 ->
  exists collections : nat,
    build_index_py.show_stats (build_index_py.world_after rep)
    = Some (build_index_py.total_icons rep, collections)
    /\ (collections <= build_index_py.total_icons rep)%nat
    /\ (collections = O <-> build_index_py.total_icons rep = O).
Proof.
  intros Hrun H Hexit.
  destruct (py_build_index_columns _ _ _ _ _ Hrun H Hexit)
    as (t & Ht & _ & _ & _ & Htotal).
  unfold build_index_py.show_stats. rewrite Ht, Htotal. cbn [mbind option_bind].
  eexists. split; [reflexivity |].
  rewrite <- (length_fmap r_prefix (icons_tbl t)).
  split; [apply length_remove_dups |].
  destruct (r_prefix <$> icons_tbl t) as [|p column] eqn:E; [done |].
  split; [| done]. intros Hz. apply length_zero_iff_nil in Hz.
  assert (Hp : p ∈ remove_dups (p :: column))
    by (apply elem_of_remove_dups, elem_of_cons; by left).
  rewrite Hz in Hp. by apply elem_of_nil in Hp.
Qed.

End BuilderColumns.

Section BundleFacts.

Import Py update_bundled_data.

Variable urlopen : string -> response.

(** X16. [main] of update_bundled_data.py. With [--verify] it returns 0
    and changes no file. Otherwise an exception leaves it only from the
    fetch of the catalog, before any file is written; else the index, the
    metadata (the catalog restricted to the filter) and the archive of
    both are written, the two tables have equally many rows, and the exit
    status is 0 exactly when at least one icon was indexed, and 1
    exactly when none was. *)
Theorem main_exit_status (fuel : nat) (verify : bool)
  (prefixes : option (list string)) (d d' : data_dir) (r : res Z) :
  main urlopen fuel verify prefixes d = Some (r, d') ->
  if verify then r = Ok 0 /\ d' = d
  else
    match r with
    | Raise e => http_get urlopen COLLECTIONS_URL = Raise e /\ d' = d
    | Ok code =>
        exists collections t m,
          http_get urlopen COLLECTIONS_URL = Ok collections
          /\ INDEX_DB d' = Some t
          /\ METADATA_FILE d' = Some m
          /\ (forall p, p ∈ keys m <->
                p ∈ keys (as_catalog collections)
                /\ iconify_cli.in_prefixes prefixes p = true)
          /\ BUNDLE_ZIP d' = Some (t, m, length (icons_tbl t))
          /\ length (icons_fts t) = length (icons_tbl t)
          /\ (code = 0 <-> icons_tbl t <> [])
          /\ (code = 1 <-> icons_tbl t = [])
    end.
Proof.
  unfold main. destruct verify; [by intros [= <- <-] |].
  destruct (http_get urlopen COLLECTIONS_URL) as [collections | e];
    [| by intros [= <- <-]].
  destruct (build_index urlopen fuel _ (as_catalog collections) prefixes)
    as [[r0 t]|] eqn:Hbuild; [| done].
  cbn [mbind option_bind fst snd].
  apply bundled_build_index_columns in Hbuild as (-> & Hfts & _ & _).
  assert (Hlen : length (icons_fts t) = length (icons_tbl t)).
  { unfold fts_prefix_column, prefix_column in Hfts.
    by rewrite <- (length_fmap f_prefix), Hfts, length_fmap. }
  unfold create_bundle, save_metadata. cbn [INDEX_DB METADATA_FILE BUNDLE_ZIP].
  intros [= <- <-]. eexists collections, t, _.
  cbn [INDEX_DB METADATA_FILE BUNDLE_ZIP].
  split; [done |]. split; [done |]. split; [reflexivity |].
  split; [| split; [done |]; split; [done |]].
  - intros p. destruct (iconify_cli.nonempty prefixes) eqn:Hne.
    + rewrite elem_of_keys_restrict. split.
      * intros [? ?]. split; [done | by apply nonempty_in_prefixes].
      * intros [? Hin]. split; [done |].
        destruct prefixes as [[|q qs]|]; try done.
        by apply bool_decide_eq_true in Hin.
    + split; [| by intros [? _]].
      intros ?. split; [done | by apply in_prefixes_empty].
  - unfold verify_bundle, bundle_issues, get_bundled_count.
    cbn [INDEX_DB METADATA_FILE BUNDLE_ZIP]. rewrite Hlen, Nat.eqb_refl.
    destruct (icons_tbl t) as [|row rows]; simpl; split; split; done.
Qed.

End BundleFacts.

Section BuilderColumnExamples.

Import Py iconify_cli.

Lemma build_index_all_or_nothing_witness :
  match build_index_py.build_index (fun url => url) b_unreachable 8
          stale_world None true with
  | Some rep =>
      cache_index (build_index_py.world_after rep) = Some stale_index
  | None => False
  end.
Proof.
  destruct (build_index_py.build_index (fun url => url) b_unreachable 8
              stale_world None true) as [rep|] eqn:E.
  - apply (build_index_all_or_nothing (fun url => url) b_unreachable 8
             stale_world None true rep E).
    clear -E. vm_compute in E. by injection E as <-.
  - vm_compute in E. discriminate.
Defined.

Lemma builders_respect_prefix_filter_witness :
  match update_bundled_data.build_index all_reachable 8 None
          three_collections (Some ["c"; "zz"]) with
  | Some (r, t) =>
      in_prefixes (Some ["c"; "zz"]) "c" = true
      /\ "c" ∈ keys three_collections
  | None => False
  end.
Proof.
  destruct (update_bundled_data.build_index all_reachable 8 None
              three_collections (Some ["c"; "zz"])) as [[r t]|] eqn:E.
  - apply (proj2 (builders_respect_prefix_filter (fun url => url)
                    all_reachable)
             8%nat None three_collections (Some ["c"; "zz"]) r t "c" E).
    left. clear -E. vm_compute in E. injection E as _ <-.
    vm_compute. apply list_elem_of_here.
  - vm_compute in E. discriminate.
Defined.

Lemma bundled_build_index_catalog_order_witness :
  update_bundled_data.build_index all_reachable 8 None three_collections None
  = update_bundled_data.build_index all_reachable 8 None reversed_collections
      None.
Proof.
  apply bundled_build_index_catalog_order.
  apply (Permutation_rev (keys three_collections)).
Defined.

Lemma built_rows_sorted_by_prefix_witness :
  match update_bundled_data.build_index all_reachable 8 None
          reversed_collections None with
  | Some (r, t) => StronglySorted String.le (prefix_column t)
  | None => False
  end.
Proof.
  destruct (update_bundled_data.build_index all_reachable 8 None
              reversed_collections None) as [[r t]|] eqn:E.
  - apply (proj2 (built_rows_sorted_by_prefix (fun url => url) all_reachable)
             8%nat None reversed_collections None r t E).
  - vm_compute in E. discriminate.
Defined.

Lemma show_stats_after_build_witness :
  match build_index_py.build_index (fun url => url) all_reachable 8
          fresh_world None true with
  | Some rep =>
      exists collections : nat,
        build_index_py.show_stats (build_index_py.world_after rep)
        = Some (build_index_py.total_icons rep, collections)
        /\ (collections <= build_index_py.total_icons rep)%nat
        /\ (collections = O <-> build_index_py.total_icons rep = O)
  | None => False
  end.
Proof.
  destruct (build_index_py.build_index (fun url => url) all_reachable 8
              fresh_world None true) as [rep|] eqn:E.
  - apply (show_stats_after_build (fun url => url) all_reachable 8
             fresh_world None true rep); [by right | exact E |].
    clear -E. vm_compute in E. by injection E as <-.
  - vm_compute in E. discriminate.
Defined.

Lemma main_exit_status_witness :
  match update_bundled_data.main all_reachable 8 false None empty_dir with
  | Some (Ok code, d') =>
      (code = 0 <->
       default [] (icons_tbl <$> update_bundled_data.INDEX_DB d') <> [])
  | _ => False
  end.
Proof.
  destruct (update_bundled_data.main all_reachable 8 false None empty_dir)
    as [[[code | e] d']|] eqn:E.
  - destruct (main_exit_status all_reachable 8 false None empty_dir d'
                (Ok code) E) as (c & t & m & _ & Hdb & _ & _ & _ & _ & H & _).
    by rewrite Hdb.
  - vm_compute in E. discriminate.
  - vm_compute in E. discriminate.
Defined.

End BuilderColumnExamples.

(** ** Alias flattening: the keys of the flattened dict *)

Section FlattenedKeys.

Import Py build_index_py.

Lemma flatten_loop_only (icons : icon_table) (name : string) (own : bool)
  (fuel : nat) :
  forall table acc ptr table' acc',
    flatten_loop fuel table name own acc ptr = Some (table', acc') ->
    same_parents table icons ->
    (forall k, k <> name -> dict_get table k = dict_get icons k) ->
    (forall a, a ∈ keys (default [] (get_aliases (entry table name))) ->
               a ∈ keys acc) ->
    forall a, a ∈ keys acc' ->
      a ∈ keys acc
      \/ exists j p t,
           ptr = Some p /\ p <> ""
           /\ ancestor (truthy_parent icons) j p = Some t
           /\ a ∈ keys (default [] (get_aliases (entry icons t))).
Proof.
  induction fuel as [|fuel IH];
    intros table acc ptr table' acc' H Hsame Hframe Hself a Ha;
    rewrite flatten_loop_eq in H; destruct (truthy ptr) eqn:Ht; try done;
    try (injection H as <- <-; by left).
  cbn zeta in H. destruct ptr as [p|]; [| done]. simpl in Ht.
  assert (Hp : p <> "").
  { intros ->. done. }
  simpl (default "" (Some p)) in H.
  set (acc1 := dict_update acc (default [] (get_aliases (entry table p))))
    in H.
  assert (Hgrow : forall x, x ∈ keys acc -> x ∈ keys acc1).
  { intros x Hx. apply elem_of_keys_dict_update. by left. }
  eapply IH in H; [| by apply same_parents_step | | | exact Ha].
  - destruct H as [H | (j & p1 & t & Hp1 & Hne1 & Hanc & Hin)].
    + apply elem_of_keys_dict_update in H as [H | H]; [by left |].
      destruct (decide (p = name)) as [-> | Hne]; [left; by apply Hself |].
      right. exists 0%nat, p, p. repeat split; try done.
      unfold entry in *. by rewrite <- Hframe.
    + right. exists (S j), p, t. repeat split; try done.
      cbn [ancestor]. unfold truthy_parent.
      rewrite <- (Hsame p), Hp1. simpl.
      apply String.eqb_neq in Hne1. by rewrite Hne1.
  - intros k Hk. destruct own; [| by apply Hframe].
    rewrite entry_set_aliases_other by done. by apply Hframe.
  - intros x Hx. destruct own; [| by apply Hgrow, Hself].
    unfold entry in Hx. rewrite dict_get_set_aliases in Hx.
    destruct (dict_get table name) as [ic|]; simpl in Hx.
    + by rewrite String.eqb_refl in Hx.
    + by apply elem_of_nil in Hx.
Qed.

(** X17. The keys of the flattened alias dict of an icon are exactly the
    alias keys of the icon and of its ancestors on the chain of truthy
    parents, as the table had them before the loop. *)
Theorem flatten_aliases_keys (fuel : nat) (icons : icon_table)
  (name : string) (icons' : icon_table) (acc : alias_dict) (a : string) :
  flatten_aliases fuel icons name = Some (icons', acc) ->
  a ∈ keys acc
  <-> exists j t,
        ancestor (truthy_parent icons) j name = Some t
        /\ a ∈ keys (default [] (get_aliases (entry icons t))).
Proof.
  unfold flatten_aliases. fold (entry icons name). intros H. split.
  - intros Ha.
    destruct (flatten_loop_only icons _ _ _ _ _ _ _ _ H
                (same_parents_refl icons) (fun k _ => eq_refl)
                (fun x Hx => Hx) a Ha)
      as [Hown | (j & p & t & Hp & Hne & Hanc & Hin)].
    + by exists 0%nat, name.
    + exists (S j), t. split; [| done]. cbn [ancestor].
      unfold truthy_parent. rewrite Hp. simpl.
      apply String.eqb_neq in Hne. by rewrite Hne.
  - intros (j & t & Hanc & Hin).
    destruct (flatten_loop_absorbs icons _ _ _ _ _ _ _ _ H
                (same_parents_refl icons) (fun k _ => eq_refl)
                (fun x Hx => Hx)) as [Hkeep Hchain].
    destruct j as [|j].
    + injection Hanc as <-. by apply Hkeep.
    + cbn [ancestor] in Hanc.
      destruct (truthy_parent icons name) as [p|] eqn:Hp; [| done].
      apply truthy_parent_some in Hp as [Hp Ht].
      apply (Hchain j p t a); try done.
      intros ->. done.
Qed.

End FlattenedKeys.

Section FlattenedKeyExamples.

Import Py iconify_cli.

Lemma flatten_aliases_keys_witness :
  match build_index_py.flatten_aliases 3 child_own "c" with
  | Some (_, acc) => "x" ∈ keys acc
  | None => False
  end.
Proof.
  destruct (build_index_py.flatten_aliases 3 child_own "c")
    as [[icons' acc]|] eqn:E.
  - apply (flatten_aliases_keys 3 child_own "c" icons' acc "x" E).
    exists 1%nat, "p". split; [reflexivity |]. vm_compute.
    apply list_elem_of_here.
  - vm_compute in E. discriminate.
Defined.

End FlattenedKeyExamples.

(** ** Query engine: whitespace in the query *)

Section QueryWhitespace.

Import Py iconify_cli.

Lemma split_from_space (c : ascii) (a b : string) :
  isspace c = true ->
  forall tok,
    split_from tok (a +:+ String c b) = split_from tok a ++ split b.
Proof.
  intros Hc. induction a as [|x a IH]; intros tok.
  - rewrite append_nil_l. simpl. rewrite Hc.
    by destruct (String.eqb tok "").
  - rewrite append_cons. simpl. destruct (isspace x).
    + destruct (String.eqb tok ""); [apply IH |]. by rewrite IH.
    + apply IH.
Qed.

(** X18. The match expression does not depend on how the query is
    spaced: a whitespace character separates tokens, and leading,
    trailing or repeated whitespace does not change the expression. *)
Theorem search_query_whitespace (c c' : ascii) (a b : string) :
  isspace c = true -> isspace c' = true ->
  split (a +:+ String c b) = split a ++ split b
  /\ search_query (String c b) = search_query b
  /\ search_query (a +:+ String c "") = search_query a
  /\ search_query (a +:+ String c (String c' b))
     = search_query (a +:+ String c' b).
Proof.
  intros Hc Hc'.
  assert (Hsplit : forall (x : ascii) (u v : string), isspace x = true ->
            split (u +:+ String x v) = split u ++ split v).
  { intros x u v Hx. by apply split_from_space. }
  split; [by apply Hsplit |]. unfold search_query. split; [| split].
  - by rewrite <- (append_nil_l (String c b)), Hsplit.
  - rewrite Hsplit by done. by rewrite app_nil_r.
  - rewrite !Hsplit by done.
    by rewrite <- (append_nil_l (String c' b)), Hsplit.
Qed.

End QueryWhitespace.

Section QueryWhitespaceExamples.

Import Py iconify_cli.

Lemma search_query_whitespace_witness :
  search_query "home  settings" = search_query "home settings".
Proof.
  exact (proj2 (proj2 (proj2 (search_query_whitespace " " " " "home"
                                "settings" eq_refl eq_refl)))).
Defined.

End QueryWhitespaceExamples.
